(** * Hook discovery, dispatch and orchestration of git's hook.c

    A shallow embedding of [hook.c]: the hook list built from the
    configuration and the hooks directory, the task planner
    [pick_next_hook], the stdin feeder [pipe_from_string_list], the
    callbacks handed to [run_processes_parallel] and the entry point
    [run_hooks_opt], together with the [run] subcommand of [git hook]
    (builtin/hook.c).  The parallel executor of run-command.c is modelled
    from the spec.  Process-wide effects (the static caches, opened file
    descriptors, messages on stderr, [die] and [BUG]) are threaded through a
    small state-and-error monad. *)

From Stdlib Require Import String Ascii List ZArith Bool Lia Permutation.
Import ListNotations.
Open Scope Z_scope.

(** ** Data model *)

(** The per-hook cursor of [pipe_from_string_list]
    ([hook->feed_pipe_cb_data]): not yet allocated (NULL), allocated and
    holding an index, or freed while the pointer is left dangling. *)
Inductive feed_cursor :=
| NoCursor
| Cursor (idx : nat)
| FreedCursor.

(** [struct hook]: [name] is NULL for the hook found in the hooks directory. *)
Record hook := mk_hook {
  name : option string;
  feed_pipe_cb_data : feed_cursor
}.

(** One configuration entry as the config layer hands it to a callback:
    the key split into section, optional subsection and variable name (the
    split [parse_config_key] performs), and a value that is NULL for a bare
    boolean key. *)
Record config_key := mk_key {
  k_section : string;
  k_subsection : option string;
  k_var : string
}.

Record config_entry := mk_entry {
  c_key : config_key;
  c_value : option string
}.

(** The repository and its surroundings, read-only during a run. *)
Record repository := mk_repo {
  config : list config_entry;          (* in the order [repo_config] visits them *)
  gitdir : string;
  hookdir : list (string * bool);      (* files in hooks/: name and executable bit *)
  files : list (string * string);      (* readable files: path and contents *)
  cwd : string;
  online_cpus_count : Z;
  advice_ignored_hook : bool
}.

(** [struct child_process], the fields [pick_next_hook] sets. *)
Record child_process := mk_cp {
  cp_env : list string;
  cp_args : list string;
  cp_no_stdin : bool;
  cp_in : Z;
  cp_stdout_to_stderr : bool;
  cp_trace2_hook_name : string;
  cp_dir : option string;
  cp_use_shell : bool
}.

Definition CHILD_PROCESS_INIT : child_process :=
  mk_cp [] [] false 0 false EmptyString None false.

(** [struct run_hooks_opt]; [invoked_hook_ptr] says whether the caller
    passed a non-NULL [invoked_hook] pointer, [feed_pipe] whether the feeder
    callback [pipe_from_string_list] is installed. *)
Record run_hooks_opt := mk_opt {
  o_env : list string;
  o_args : list string;
  o_invoked_hook_ptr : bool;
  o_path_to_stdin : option string;
  o_feed_pipe : bool;
  o_feed_pipe_ctx : list string;
  o_error_if_missing : bool;
  o_jobs : Z;
  o_dir : option string;
  o_consume_sideband : bool
}.

(** The data fields of [struct run_process_parallel_opts]; the callbacks are
    always those of hook.c. *)
Record pp_opts := mk_pp {
  pp_tr2_label : string;
  pp_processes : Z;
  pp_ungroup : bool;
  pp_feed_pipe : bool;
  pp_consume_sideband : bool
}.

(** What the outside world observes. *)
Inductive event :=
| EvStderr (msg : string)
| EvRunParallel (o : pp_opts)
| EvTask (cp : child_process) (stdin_data : option string) (status : Z)
| EvStartFailed (cp : child_process).

(** [struct hook_cb_data]: [run_me] is an index into [head], the linked
    list of hooks. *)
Record hook_cb_data := mk_cb {
  rc : Z;
  hook_name : string;
  head : list hook;
  run_me : option nat
}.

(** The mutable state of the process. *)
Record state := mk_state {
  jobs_cache : Z;                     (* static [jobs] of configured_hook_jobs *)
  advise_given : list string;         (* static [advise_given] of find_hook *)
  fds : list (string * nat);          (* open file descriptions: path, offset *)
  trace : list event;
  invoked_hook : bool;                (* *options->invoked_hook *)
  cb : hook_cb_data
}.

(** ** A state and error monad *)

Inductive outcome (A : Type) :=
| Ok (a : A) (s : state)
| Died (msg : string) (s : state)     (* die(): the process exits *)
| Bugged (msg : string)               (* BUG() *)
| Undefined.                          (* undefined behaviour in C *)
Arguments Ok {A}. Arguments Died {A}. Arguments Bugged {A}. Arguments Undefined {A}.

Definition M (A : Type) := state -> outcome A.

Definition ret {A} (a : A) : M A := fun s => Ok a s.
Definition bind {A B} (m : M A) (f : A -> M B) : M B :=
  fun s => match m s with
           | Ok a s' => f a s'
           | Died msg s' => Died msg s'
           | Bugged msg => Bugged msg
           | Undefined => Undefined
           end.

Notation "x <- m ;; k" := (bind m (fun x => k))
  (at level 61, m at next level, right associativity).
Notation "m ;;; k" := (bind m (fun _ => k)) (at level 61, right associativity).

Definition get : M state := fun s => Ok s s.
Definition put (s : state) : M unit := fun _ => Ok tt s.
Definition modify (f : state -> state) : M unit := fun s => Ok tt (f s).
Definition die {A} (msg : string) : M A := fun s => Died msg s.
Definition BUG {A} (msg : string) : M A := fun _ => Bugged msg.
Definition undefined {A} : M A := fun _ => Undefined.
Definition lift {A} (o : option A) : M A :=
  match o with Some a => ret a | None => undefined end.

Definition emit (e : event) : M unit :=
  modify (fun s => mk_state s.(jobs_cache) s.(advise_given) s.(fds)
                     (s.(trace) ++ [e]) s.(invoked_hook) s.(cb)).
Definition set_cb (c : hook_cb_data) : M unit :=
  modify (fun s => mk_state s.(jobs_cache) s.(advise_given) s.(fds)
                     s.(trace) s.(invoked_hook) c).
Definition set_invoked (b : bool) : M unit :=
  modify (fun s => mk_state s.(jobs_cache) s.(advise_given) s.(fds)
                     s.(trace) b s.(cb)).
Definition set_jobs_cache (j : Z) : M unit :=
  modify (fun s => mk_state j s.(advise_given) s.(fds)
                     s.(trace) s.(invoked_hook) s.(cb)).
Definition set_advise_given (l : list string) : M unit :=
  modify (fun s => mk_state s.(jobs_cache) l s.(fds)
                     s.(trace) s.(invoked_hook) s.(cb)).
Definition set_fds (l : list (string * nat)) : M unit :=
  modify (fun s => mk_state s.(jobs_cache) s.(advise_given) l
                     s.(trace) s.(invoked_hook) s.(cb)).

(** [error()] prints its message and returns -1. *)
Definition error (msg : string) : M Z := emit (EvStderr ("error: " ++ msg)%string) ;;; ret (-1).

(** ** Discovery *)

(** [find_hook_by_name]: the list with the first hook named [name] unlinked,
    and that hook.  [strcmp] on the NULL name of the hooks-directory entry
    is undefined behaviour ([None]). *)
Fixpoint find_hook_by_name (l : list hook) (nm : string)
  : option (list hook * option hook) :=
  match l with
  | [] => Some ([], None)
  | it :: rest =>
      match it.(name) with
      | None => None
      | Some n =>
          if String.eqb n nm then Some (rest, Some it)
          else match find_hook_by_name rest nm with
               | Some (rest', found) => Some (it :: rest', found)
               | None => None
               end
      end
  end.

(** [append_or_move_hook]; [None] is undefined behaviour. *)
Definition append_or_move_hook (l : list hook) (nm : option string)
  : option (list hook) :=
  match nm with
  | Some n =>
      match find_hook_by_name l n with
      | Some (l', Some found) => Some (l' ++ [found])
      | Some (l', None) => Some (l' ++ [mk_hook (Some n) NoCursor])
      | None => None
      end
  | None => Some (l ++ [mk_hook None NoCursor])
  end.

(** [hook_config_lookup] on one entry. *)
Definition hook_config_lookup (hook_event : string) (l : list hook)
  (e : config_entry) : option (list hook) :=
  match e.(c_value) with
  | None => Some l
  | Some v =>
      if negb (String.eqb v hook_event) then Some l
      else if negb (String.eqb e.(c_key).(k_section) "hook") then Some l
      else if negb (String.eqb e.(c_key).(k_var) "event") then Some l
      else
        (* a missing subsection gives the empty string *)
        let subsection := match e.(c_key).(k_subsection) with
                          | Some s => s | None => EmptyString end in
        append_or_move_hook l (Some subsection)
  end.

(** [repo_config] driving [hook_config_lookup] over every entry. *)
Fixpoint config_scan (hook_event : string) (l : list hook)
  (es : list config_entry) : option (list hook) :=
  match es with
  | [] => Some l
  | e :: es' =>
      match hook_config_lookup hook_event l e with
      | Some l' => config_scan hook_event l' es'
      | None => None
      end
  end.

Definition hookdir_path (r : repository) (nm : string) : string :=
  (r.(gitdir) ++ "/hooks/" ++ nm)%string.

Definition ignored_hook_advice (path : string) : string :=
  ("hint: The '" ++ path ++ "' hook was ignored because it's not set as executable.")%string.

(** [find_hook]: the path of the executable hook in the hooks directory;
    a present but non-executable file triggers the one-time advice.
    (Platforms with [STRIP_EXTENSION] are not modelled.) *)
Definition find_hook (r : repository) (nm : string) : M (option string) :=
  let path := hookdir_path r nm in
  match find (fun p => String.eqb (fst p) nm) r.(hookdir) with
  | Some (_, true) => ret (Some path)
  | Some (_, false) =>
      if r.(advice_ignored_hook) then
        s <- get ;;
        if existsb (String.eqb nm) s.(advise_given) then ret None
        else set_advise_given (nm :: s.(advise_given)) ;;;
             emit (EvStderr (ignored_hook_advice path)) ;;;
             ret None
      else ret None
  | None => ret None
  end.

(** [list_hooks]. *)
Definition list_hooks (r : repository) (hookname : string) : M (list hook) :=
  l <- lift (config_scan hookname [] r.(config)) ;;
  found <- find_hook r hookname ;;
  match found with
  | Some _ => lift (append_or_move_hook l None)
  | None => ret l
  end.

(** ** Configuration lookups *)

Definition config_key_eqb (a b : config_key) : bool :=
  String.eqb a.(k_section) b.(k_section) &&
  match a.(k_subsection), b.(k_subsection) with
  | Some x, Some y => String.eqb x y
  | None, None => true
  | _, _ => false
  end &&
  String.eqb a.(k_var) b.(k_var).

(** The value of the last entry for [k] (git's "last one wins"). *)
Definition config_last (r : repository) (k : config_key) : option (option string) :=
  fold_left (fun acc e => if config_key_eqb e.(c_key) k then Some e.(c_value) else acc)
            r.(config) None.

Definition key_to_string (k : config_key) : string :=
  match k.(k_subsection) with
  | Some sub => (k.(k_section) ++ "." ++ sub ++ "." ++ k.(k_var))%string
  | None => (k.(k_section) ++ "." ++ k.(k_var))%string
  end.

(** [repo_config_get_string]: [None] when the key is absent, or when its
    value is NULL (git_config_string then reports the error and fails). *)
Definition repo_config_get_string (r : repository) (k : config_key)
  : M (option string) :=
  match config_last r k with
  | Some (Some v) => ret (Some v)
  | Some None =>
      error ("missing value for '" ++ key_to_string k ++ "'")%string ;;; ret None
  | None => ret None
  end.

(** [git_parse_int] on decimal numbers with an optional sign and unit
    suffix (k, m, g), rejecting values outside [int]. *)
Fixpoint parse_digits (s : string) (acc : Z) : option (Z * string) :=
  match s with
  | EmptyString => Some (acc, EmptyString)
  | String c rest =>
      let n := Z.of_nat (Ascii.nat_of_ascii c) - 48 in
      if (0 <=? n) && (n <=? 9) then parse_digits rest (acc * 10 + n)
      else Some (acc, s)
  end.

Definition unit_factor (s : string) : option Z :=
  match s with
  | EmptyString => Some 1
  | String c EmptyString =>
      if Ascii.eqb c "k"%char || Ascii.eqb c "K"%char then Some 1024
      else if Ascii.eqb c "m"%char || Ascii.eqb c "M"%char then Some (1024 * 1024)
      else if Ascii.eqb c "g"%char || Ascii.eqb c "G"%char then Some (1024 * 1024 * 1024)
      else None
  | _ => None
  end.

Definition git_parse_int (s : string) : option Z :=
  let '(sign, body) := match s with
                       | String c rest => if Ascii.eqb c "-"%char then (-1, rest) else (1, s)
                       | EmptyString => (1, s)
                       end in
  match body with
  | EmptyString => None
  | String c _ =>
      let n := Z.of_nat (Ascii.nat_of_ascii c) - 48 in
      if negb ((0 <=? n) && (n <=? 9)) then None
      else match parse_digits body 0 with
           | Some (v, suffix) =>
               match unit_factor suffix with
               | Some f =>
                   let x := sign * v * f in
                   if (-2147483648 <=? x) && (x <=? 2147483647) then Some x else None
               | None => None
               end
           | None => None
           end
  end.

(** [repo_config_get_int]: [None] when absent; a value that is not a
    number makes git_config_int die. *)
Definition repo_config_get_int (r : repository) (k : config_key) : M (option Z) :=
  match config_last r k with
  | Some (Some v) =>
      match git_parse_int v with
      | Some n => ret (Some n)
      | None => die ("bad numeric config value '" ++ v ++ "' for '" ++ key_to_string k ++ "'")%string
      end
  | Some None => die ("bad numeric config value for '" ++ key_to_string k ++ "'")%string
  | None => ret None
  end.

Definition hook_jobs_key : config_key := mk_key "hook" None "jobs".
Definition hook_command_key (nm : string) : config_key := mk_key "hook" (Some nm) "command".

(** [configured_hook_jobs], with its process-wide cache. *)
Definition configured_hook_jobs (r : repository) : M Z :=
  s <- get ;;
  if negb (s.(jobs_cache) =? 0) then ret s.(jobs_cache)
  else
    v <- repo_config_get_int r hook_jobs_key ;;
    let jobs := match v with Some j => j | None => r.(online_cpus_count) end in
    set_jobs_cache jobs ;;; ret jobs.

(** ** Dispatch *)

(** [xopen(path, O_RDONLY)]: a fresh file description at offset 0, or
    death when the file cannot be opened. *)
Definition xopen (r : repository) (path : string) : M Z :=
  match find (fun p => String.eqb (fst p) path) r.(files) with
  | Some _ =>
      s <- get ;;
      set_fds (s.(fds) ++ [(path, 0%nat)]) ;;;
      ret (3 + Z.of_nat (length s.(fds)))
  | None => die ("could not open '" ++ path ++ "' for reading")%string
  end.

Definition starts_with_slash (p : string) : bool :=
  match p with String c _ => Ascii.eqb c "/"%char | EmptyString => false end.

Definition absolute_path (r : repository) (p : string) : string :=
  if starts_with_slash p then p else (r.(cwd) ++ "/" ++ p)%string.

Definition missing_command_msg (nm : string) : string :=
  ("'hook." ++ nm ++ ".command' must be configured or 'hook." ++ nm
   ++ ".event' must be removed; aborting.")%string.

Definition set_cp_in (cp : child_process) (no_stdin : bool) (fd : Z) : child_process :=
  mk_cp cp.(cp_env) cp.(cp_args) no_stdin fd cp.(cp_stdout_to_stderr)
        cp.(cp_trace2_hook_name) cp.(cp_dir) cp.(cp_use_shell).

(** [pick_next_hook]: the next task and its [pp_task_cb] (the index of the
    hook in the list), or [None] when the list is done. *)
Definition pick_next_hook (r : repository) (options : run_hooks_opt)
  : M (option (child_process * nat)) :=
  s <- get ;;
  let c := s.(cb) in
  match c.(run_me) with
  | None => ret None
  | Some i =>
      to_run <- lift (nth_error c.(head) i) ;;
      (* reopen the file for stdin; run_command closes it *)
      stdin <- match options.(o_path_to_stdin) with
               | Some p => fd <- xopen r p ;; ret (false, fd)
               | None => if options.(o_feed_pipe) then ret (false, -1) else ret (true, 0)
               end ;;
      let '(no_stdin, fd) := stdin in
      argv0 <- match to_run.(name) with
               | Some nm =>
                   command <- repo_config_get_string r (hook_command_key nm) ;;
                   match command with
                   | Some cmd => ret cmd
                   | None => die (missing_command_msg nm)
                   end
               | None =>
                   hp <- find_hook r c.(hook_name) ;;
                   match hp with
                   | None => BUG "hookdir hook in hook list but no hookdir hook present in filesystem"
                   | Some p => ret (match options.(o_dir) with
                                    | Some _ => absolute_path r p
                                    | None => p
                                    end)
                   end
               end ;;
      let cp := mk_cp options.(o_env) (argv0 :: options.(o_args)) no_stdin fd
                      true c.(hook_name) options.(o_dir)
                      (match to_run.(name) with Some _ => true | None => false end) in
      s' <- get ;;
      let c' := s'.(cb) in
      let next := if Nat.eqb (S i) (length c'.(head)) then None else Some (S i) in
      set_cb (mk_cb c'.(rc) c'.(hook_name) c'.(head) next) ;;;
      ret (Some (cp, i))
  end.

Definition start_failure_msg (h : hook) : string :=
  match h.(name) with
  | Some nm => ("Couldn't start hook '" ++ nm ++ "'")%string
  | None => "Couldn't start hook from hooks directory"%string
  end.

(** [notify_start_failure]; [out] is NULL when the output is ungrouped, and
    a buffered message ends up on stderr. *)
Definition notify_start_failure (out : bool) (task : nat) : M Z :=
  s <- get ;;
  let c := s.(cb) in
  set_cb (mk_cb (Z.lor c.(rc) 1) c.(hook_name) c.(head) c.(run_me)) ;;;
  (if out then
     h <- lift (nth_error c.(head) task) ;;
     emit (EvStderr (start_failure_msg h))
   else ret tt) ;;;
  ret 1.

(** [notify_hook_finished]. *)
Definition notify_hook_finished (options : run_hooks_opt) (result : Z) : M Z :=
  s <- get ;;
  let c := s.(cb) in
  set_cb (mk_cb (Z.lor c.(rc) result) c.(hook_name) c.(head) c.(run_me)) ;;;
  (if options.(o_invoked_hook_ptr) then set_invoked true else ret tt) ;;;
  ret 0.

(** [pipe_from_string_list] for the task [task]: its return value and what
    it appended to [pipe]. *)
Definition pipe_from_string_list (to_pipe : list string) (task : nat) : M (Z * string) :=
  s <- get ;;
  let c := s.(cb) in
  h <- lift (nth_error c.(head) task) ;;
  (* bootstrap the state manager if necessary *)
  item_idx <- match h.(feed_pipe_cb_data) with
              | NoCursor => ret 0%nat
              | Cursor n => ret n
              | FreedCursor => undefined
              end ;;
  let upd cur := mk_cb c.(rc) c.(hook_name)
                   (firstn task c.(head) ++ mk_hook h.(name) cur :: skipn (S task) c.(head))
                   c.(run_me) in
  match nth_error to_pipe item_idx with
  | Some line =>
      set_cb (upd (Cursor (S item_idx))) ;;;
      ret (0, (line ++ String (Ascii.ascii_of_nat 10) EmptyString)%string)
  | None =>
      set_cb (upd FreedCursor) ;;; ret (1, EmptyString)
  end.

(** ** The parallel executor *)

(** Modelled from the spec: [run_processes_parallel] of run-command.c, the
    "Parallel Runner" of the spec.  It asks [get_next_task] (here
    [pick_next_hook]) for tasks in order until none is left; a task that
    cannot be started is reported through [start_failure] and does not stop
    the remaining tasks; a started task gets its stdin (from the feeder
    through a pipe, or from its file descriptor, read to the end), runs to
    its exit status, and is reported through [task_finished].
    [run_child] gives the exit status of a child, [None] when
    [start_command] fails.  The loops are bounded by [fuel]; running out of
    it is reported as a BUG. *)
Fixpoint feed_task (fuel : nat) (ctx : list string) (task : nat) : M string :=
  match fuel with
  | O => BUG "executor: out of fuel"
  | S f =>
      res <- pipe_from_string_list ctx task ;;
      let '(code, out) := res in
      if code =? 0 then rest <- feed_task f ctx task ;; ret (out ++ rest)%string
      else ret out
  end.

Fixpoint update_nth {A} (n : nat) (x : A) (l : list A) : list A :=
  match l, n with
  | [], _ => []
  | _ :: t, O => x :: t
  | y :: t, S m => y :: update_nth m x t
  end.

(** What a started child reads on its stdin. *)
Definition child_stdin (r : repository) (options : run_hooks_opt) (opts : pp_opts)
  (fuel : nat) (cp : child_process) (task : nat) : M (option string) :=
  if cp.(cp_no_stdin) then ret None
  else if cp.(cp_in) =? -1 then
    if opts.(pp_feed_pipe) then
      d <- feed_task fuel options.(o_feed_pipe_ctx) task ;; ret (Some d)
    else ret (Some EmptyString)
  else
    s <- get ;;
    let fd := Z.to_nat (cp.(cp_in) - 3) in
    desc <- lift (nth_error s.(fds) fd) ;;
    let '(p, off) := desc in
    contents <- lift (option_map snd (find (fun q => String.eqb (fst q) p) r.(files))) ;;
    set_fds (update_nth fd (p, String.length contents) s.(fds)) ;;;
    ret (Some (substring off (String.length contents - off) contents)).

Fixpoint pp_loop (run_child : child_process -> option Z) (r : repository)
  (options : run_hooks_opt) (opts : pp_opts) (fuel_feed fuel : nat) : M unit :=
  match fuel with
  | O => BUG "executor: out of fuel"
  | S f =>
      t <- pick_next_hook r options ;;
      match t with
      | None => ret tt
      | Some (cp, task) =>
          match run_child cp with
          | None =>
              emit (EvStartFailed cp) ;;;
              notify_start_failure (negb opts.(pp_ungroup)) task ;;;
              pp_loop run_child r options opts fuel_feed f
          | Some status =>
              data <- child_stdin r options opts fuel_feed cp task ;;
              emit (EvTask cp data status) ;;;
              notify_hook_finished options status ;;;
              pp_loop run_child r options opts fuel_feed f
          end
      end
  end.

Definition run_processes_parallel (run_child : child_process -> option Z)
  (r : repository) (options : run_hooks_opt) (opts : pp_opts) (fuel : nat) : M unit :=
  emit (EvRunParallel opts) ;;;
  pp_loop run_child r options opts fuel fuel.

(** ** The entry points *)

Definition is_empty {A} (l : list A) : bool :=
  match l with [] => true | _ => false end.

(** [run_hooks_opt] (the caller's [options] are not handed back: the run
    only clears their vectors and may fill in [jobs]). *)
Definition run_hooks_opt_fn (run_child : child_process -> option Z)
  (r : repository) (hook_name : string) (options : run_hooks_opt) : M Z :=
  let opts := mk_pp hook_name 1 true options.(o_feed_pipe) options.(o_consume_sideband) in
  l <- list_hooks r hook_name ;;
  (* list_first_entry: the first hook *)
  set_cb (mk_cb 0 hook_name l (Some 0%nat)) ;;;
  (if options.(o_invoked_hook_ptr) then set_invoked false else ret tt) ;;;
  match options.(o_path_to_stdin), options.(o_feed_pipe) with
  | Some _, true => BUG "choose only one method to populate stdin"
  | _, _ =>
      if is_empty l && negb options.(o_error_if_missing) then ret 0
      else if is_empty l then error ("cannot find a hook named " ++ hook_name)%string
      else
        (* INIT_PARALLEL sets jobs to 0, so go look up how many to use *)
        jobs <- (if options.(o_jobs) =? 0 then configured_hook_jobs r
                 else ret options.(o_jobs)) ;;
        (* run_me->list.next == head: the first hook is the last one *)
        let ungroup := (jobs =? 1) || Nat.eqb 1 (length l) in
        let opts' := mk_pp opts.(pp_tr2_label) opts.(pp_processes) ungroup
                           opts.(pp_feed_pipe) opts.(pp_consume_sideband) in
        run_processes_parallel run_child r options opts'
          (S (length l + length options.(o_feed_pipe_ctx))) ;;;
        s <- get ;;
        ret s.(cb).(rc)
  end.

(** The [run] subcommand of [git hook] (builtin/hook.c), from the options
    [parse_options] filled in. *)
Definition cmd_hook_run (run_child : child_process -> option Z) (r : repository)
  (hook_name : string) (ignore_missing : bool) (opt : run_hooks_opt) : M Z :=
  let opt' := mk_opt opt.(o_env) opt.(o_args) opt.(o_invoked_hook_ptr)
                     opt.(o_path_to_stdin) opt.(o_feed_pipe) opt.(o_feed_pipe_ctx)
                     (if negb ignore_missing then true else opt.(o_error_if_missing))
                     opt.(o_jobs) opt.(o_dir) opt.(o_consume_sideband) in
  ret_ <- run_hooks_opt_fn run_child r hook_name opt' ;;
  if ret_ <? 0 then ret 1 else ret ret_.

(** [RUN_HOOKS_OPT_INIT_PARALLEL] of hook.h: empty vectors, no stdin, no
    directory, and [jobs] 0, which makes [run_hooks_opt] look the job count
    up. *)
Definition RUN_HOOKS_OPT_INIT_PARALLEL : run_hooks_opt :=
  mk_opt [] [] false None false [] false 0 None false.

(** [run_hooks_l]: the variadic arguments, up to the terminating NULL, are
    pushed onto [opt.args]. *)
Definition run_hooks_l (run_child : child_process -> option Z) (r : repository)
  (hook_name : string) (va : list string) : M Z :=
  let opt := RUN_HOOKS_OPT_INIT_PARALLEL in
  run_hooks_opt_fn run_child r hook_name
    (mk_opt opt.(o_env) (opt.(o_args) ++ va) opt.(o_invoked_hook_ptr)
            opt.(o_path_to_stdin) opt.(o_feed_pipe) opt.(o_feed_pipe_ctx)
            opt.(o_error_if_missing) opt.(o_jobs) opt.(o_dir) opt.(o_consume_sideband)).

(** [hook_exists]. *)
Definition hook_exists (r : repository) (name : string) : M Z :=
  hooks <- list_hooks r name ;;
  ret (if is_empty hooks then 0 else 1).

(** [BUILTIN_HOOK_RUN_USAGE]; [usage_with_options] prints it with the
    options and exits with code 129, modelled as a death with this text. *)
Definition builtin_hook_run_usage : string :=
  ("git hook run [--ignore-missing] [--to-stdin=<path>] [(-j|--jobs) <n>]" ++
   String (Ascii.ascii_of_nat 10) "<hook-name> [-- <hook-args>]")%string.

(** The [run] subcommand of builtin/hook.c from the words [parse_options]
    leaves in [argv] (with [PARSE_OPT_KEEP_DASHDASH], so a [--] stays),
    and the options it filled in. *)
Definition run_argv (run_child : child_process -> option Z) (r : repository)
  (argv : list string) (ignore_missing : bool) (opt : run_hooks_opt) : M Z :=
  match argv with
  | [] => die builtin_hook_run_usage
  | hook_name :: rest =>
      (* having a -- for "run" when providing <hook-args> is mandatory *)
      if match rest with
         | a1 :: _ => negb (String.eqb a1 "--") && negb (String.eqb a1 "--end-of-options")
         | [] => false
         end
      then die builtin_hook_run_usage
      else
        (* add our arguments, start after -- *)
        let opt' := mk_opt opt.(o_env) (opt.(o_args) ++ skipn 1 rest) opt.(o_invoked_hook_ptr)
                           opt.(o_path_to_stdin) opt.(o_feed_pipe) opt.(o_feed_pipe_ctx)
                           opt.(o_error_if_missing) opt.(o_jobs) opt.(o_dir)
                           opt.(o_consume_sideband) in
        cmd_hook_run run_child r hook_name ignore_missing opt'
  end.

(** ** Concrete configurations *)

Definition ev_entry (nm ev : string) : config_entry :=
  mk_entry (mk_key "hook" (Some nm) "event") (Some ev).
Definition cmd_entry (nm cmd : string) : config_entry :=
  mk_entry (mk_key "hook" (Some nm) "command") (Some cmd).

Definition empty_cb : hook_cb_data := mk_cb 0 EmptyString [] None.
Definition init_state : state := mk_state 0 [] [] [] false empty_cb.

Definition mk_repo_of (cfg : list config_entry) (hd : list (string * bool))
  (fs : list (string * string)) : repository :=
  mk_repo cfg ".git" hd fs "/work" 4 true.

Definition plain_opt : run_hooks_opt :=
  mk_opt [] [] true None false [] false 0 None false.

Definition names_of (l : list hook) : list (option string) := map name l.

Definition example_repo : repository :=
  mk_repo_of [ev_entry "def" "pre-commit"; cmd_entry "def" "echo def";
              ev_entry "ghi" "pre-commit"; ev_entry "ghi" "test-hook";
              cmd_entry "ghi" "echo ghi"; ev_entry "def" "pre-commit"]
             [("pre-commit"%string, true)] [].

Definition outcome_value {A} (o : outcome A) : option A :=
  match o with Ok a _ => Some a | _ => None end.

(** ** Discovery order *)

(** The identities [hook_config_lookup] registers, in scan order. *)
Definition event_decl (hook_event : string) (e : config_entry) : option string :=
  match e.(c_value) with
  | Some v =>
      if String.eqb v hook_event && String.eqb e.(c_key).(k_section) "hook"
         && String.eqb e.(c_key).(k_var) "event"
      then Some (match e.(c_key).(k_subsection) with Some s => s | None => EmptyString end)
      else None
  | None => None
  end.

Fixpoint event_decls (hook_event : string) (es : list config_entry) : list string :=
  match es with
  | [] => []
  | e :: es' =>
      match event_decl hook_event e with
      | Some n => n :: event_decls hook_event es'
      | None => event_decls hook_event es'
      end
  end.

(** Each name kept at the position of its last occurrence. *)
Fixpoint keep_last (l : list string) : list string :=
  match l with
  | [] => []
  | x :: xs => if existsb (String.eqb x) xs then keep_last xs else x :: keep_last xs
  end.

(** A sequence of registrations through [append_or_move_hook]. *)
Fixpoint register_all (l : list hook) (ns : list (option string)) : option (list hook) :=
  match ns with
  | [] => Some l
  | n :: ns' =>
      match append_or_move_hook l n with
      | Some l' => register_all l' ns'
      | None => None
      end
  end.

Definition not_in (ns : list string) (y : string) : bool :=
  negb (existsb (String.eqb y) ns).

(** The hooks directory holds an executable hook for [nm]. *)
Definition hookdir_exec (r : repository) (nm : string) : bool :=
  match find (fun p => String.eqb (fst p) nm) r.(hookdir) with
  | Some (_, true) => true
  | _ => false
  end.

(** [s'] differs from [s] only by messages on stderr, each satisfying [P],
    and the advice record. *)
Definition quiet (P : string -> Prop) (s s' : state) : Prop :=
  jobs_cache s' = jobs_cache s /\ fds s' = fds s /\ invoked_hook s' = invoked_hook s
  /\ cb s' = cb s /\ exists msgs, trace s' = trace s ++ map EvStderr msgs /\ Forall P msgs.

Definition is_advice (m : string) : Prop := exists p, m = ignored_hook_advice p.

Definition cannot_find_msg (ev : string) : string :=
  ("error: cannot find a hook named " ++ ev)%string.

(** ** What the runs are observed through *)

Definition command_of (r : repository) (n : string) : option string :=
  match config_last r (hook_command_key n) with Some (Some v) => Some v | _ => None end.

Definition file_contents (r : repository) (p : string) : option string :=
  option_map snd (find (fun q => String.eqb (fst q) p) r.(files)).

Definition stdin_setup (options : run_hooks_opt) (s : state) (cp : child_process) (s' : state) : Prop :=
  match o_path_to_stdin options with
  | Some p => fds s' = fds s ++ [(p, 0%nat)] /\ cp_in cp = 3 + Z.of_nat (length (fds s))
              /\ cp_no_stdin cp = false
  | None => fds s' = fds s /\
            (if o_feed_pipe options then cp_in cp = -1 /\ cp_no_stdin cp = false
             else cp_no_stdin cp = true)
  end.

Definition replace_at {A} (t : nat) (x : A) (l : list A) : list A :=
  firstn t l ++ x :: skipn (S t) l.

Definition set_head (s : state) (hd : list hook) : state :=
  mk_state (jobs_cache s) (advise_given s) (fds s) (trace s) (invoked_hook s)
           (mk_cb (rc (cb s)) (hook_name (cb s)) hd (run_me (cb s))).

Fixpoint lines (ctx : list string) : string :=
  match ctx with
  | [] => EmptyString
  | l :: rest => ((l ++ String (Ascii.ascii_of_nat 10) EmptyString) ++ lines rest)%string
  end.

Definition cursor_at (c : feed_cursor) (k : nat) : Prop :=
  (c = NoCursor /\ k = 0%nat) \/ c = Cursor k.

Definition stdin_ok (r : repository) (options : run_hooks_opt) (d : option string) : Prop :=
  match o_path_to_stdin options with
  | Some p => d = file_contents r p
  | None => if o_feed_pipe options then d = Some (lines (o_feed_pipe_ctx options)) else d = None
  end.

Definition task_status (e : event) : list Z :=
  match e with EvTask _ _ st => [st] | EvStartFailed _ => [1] | _ => [] end.

Definition statuses (new : list event) : list Z := flat_map task_status new.

Definition or_all (l : list Z) : Z := fold_right Z.lor 0 l.

Definition is_task (e : event) : bool :=
  match e with EvTask _ _ _ => true | _ => false end.

Definition start_failed_ok (run_child : child_process -> option Z) (e : event) : Prop :=
  match e with EvStartFailed cp => run_child cp = None | _ => True end.

Definition not_run_parallel (e : event) : Prop :=
  match e with EvRunParallel _ => False | _ => True end.

(** The executor's loop invariant at the [i]-th hook. *)
Definition loop_inv (r : repository) (s : state) (i : nat) : Prop :=
  run_me (cb s) = (if Nat.eqb i (length (head (cb s))) then None else Some i)
  /\ (i <= length (head (cb s)))%nat
  /\ (forall j h, (i <= j)%nat -> nth_error (head (cb s)) j = Some h -> feed_pipe_cb_data h = NoCursor)
  /\ (In None (map name (head (cb s))) -> hookdir_exec r (hook_name (cb s)) = true).

Definition head_rel (i : nat) (l l' : list hook) : Prop :=
  length l' = length l /\ (forall j, j <> i -> nth_error l' j = nth_error l j)
  /\ map name l' = map name l.

Definition task_stdin_ok (r : repository) (options : run_hooks_opt) (e : event) : Prop :=
  match e with EvTask _ d _ => stdin_ok r options d | _ => True end.

Definition missing_at (r : repository) (options : run_hooks_opt) (h : hook) : Prop :=
  (exists n, name h = Some n /\ command_of r n = None)
  \/ (exists p, o_path_to_stdin options = Some p /\ file_contents r p = None).

Definition hook_names (r : repository) (ev : string) : list (option string) :=
  map Some (keep_last (event_decls ev r.(config))) ++ (if hookdir_exec r ev then [None] else []).

(** The job count a run settles on, [None] when reading [hook.jobs] dies. *)
Definition resolved_jobs (r : repository) (options : run_hooks_opt) (cache : Z) : option Z :=
  if o_jobs options =? 0 then
    if negb (cache =? 0) then Some cache
    else match config_last r hook_jobs_key with
         | Some (Some v) => git_parse_int v
         | Some None => None
         | None => Some (online_cpus_count r)
         end
  else Some (o_jobs options).

Fixpoint task_inputs (t : list event) : list (option string) :=
  match t with
  | [] => []
  | EvTask _ d _ :: t' => d :: task_inputs t'
  | _ :: t' => task_inputs t'
  end.

(** What [pick_next_hook] puts into the child for a hook named [nm]. *)
Definition hook_cp (r : repository) (options : run_hooks_opt) (ev : string)
  (nm : option string) (cp : child_process) : Prop :=
  cp_env cp = o_env options /\ cp_stdout_to_stderr cp = true
  /\ cp_trace2_hook_name cp = ev /\ cp_dir cp = o_dir options
  /\ (o_path_to_stdin options = None -> o_feed_pipe options = false -> cp_no_stdin cp = true)
  /\ (o_path_to_stdin options = None -> o_feed_pipe options = true ->
        cp_no_stdin cp = false /\ cp_in cp = -1)
  /\ (forall p, o_path_to_stdin options = Some p -> cp_no_stdin cp = false /\ 3 <= cp_in cp)
  /\ match nm with
     | Some n => cp_use_shell cp = true
                 /\ exists c, command_of r n = Some c /\ cp_args cp = c :: o_args options
     | None => cp_use_shell cp = false
               /\ cp_args cp = (match o_dir options with
                                | Some _ => absolute_path r (hookdir_path r ev)
                                | None => hookdir_path r ev
                                end) :: o_args options
     end.

(** The children a list of events shows being dispatched, in order. *)
Fixpoint dispatched (t : list event) : list child_process :=
  match t with
  | [] => []
  | EvTask cp _ _ :: t' => cp :: dispatched t'
  | EvStartFailed cp :: t' => cp :: dispatched t'
  | _ :: t' => dispatched t'
  end.

(** The names of the hooks [run_me] has still to go through. *)
Definition pending (c : hook_cb_data) : list (option string) :=
  match run_me c with
  | None => []
  | Some i => skipn i (map name (head c))
  end.

(** A step that only prints to stderr and leaves the hook list, its cursor
    and the event name alone. *)
Definition quiet_step (s s' : state) : Prop :=
  hook_name (cb s') = hook_name (cb s)
  /\ map name (head (cb s')) = map name (head (cb s))
  /\ run_me (cb s') = run_me (cb s)
  /\ exists msgs, trace s' = trace s ++ map EvStderr msgs.



(** ** Concrete runs *)

(** The state an outcome ends in. *)
Definition final_state {A} (o : outcome A) : state :=
  match o with Ok _ s | Died _ s => s | _ => init_state end.

Definition jobs4_opt : run_hooks_opt := mk_opt [] [] true None false [] false 4 None false.

Definition feed_opt (ctx : list string) : run_hooks_opt := mk_opt [] [] true None true ctx false 1 None false.

Definition file_opt (p : string) : run_hooks_opt := mk_opt [] [] true (Some p) false [] false 1 None false.

Definition missing_opt : run_hooks_opt := mk_opt [] [] true None false [] true 0 None false.

Definition two_repo : repository :=
  mk_repo_of [ev_entry "a" "post-receive"; cmd_entry "a" "cat";
              ev_entry "b" "post-receive"; cmd_entry "b" "cat"] []
             [("in.txt"%string, "line1
line2
"%string)].

Definition nocmd_repo : repository := mk_repo_of [ev_entry "a" "pre-commit"] [] [].

Definition mixed_repo : repository :=
  mk_repo_of [ev_entry "a" "post-receive"; cmd_entry "a" "missing-binary";
              ev_entry "b" "post-receive"; cmd_entry "b" "exit 2"] [] [].

Definition mixed_child (cp : child_process) : option Z :=
  match cp.(cp_args) with
  | "missing-binary"%string :: _ => None
  | _ => Some 2
  end.

(** More concrete configurations. *)
Definition dir_repo : repository :=
  mk_repo_of [ev_entry "a" "pre-commit"; cmd_entry "a" "echo a"] [("pre-commit"%string, true)] [].

Definition dir_opt : run_hooks_opt :=
  mk_opt ["K=V"%string] ["x"%string] false None false [] false 1 (Some "sub"%string) false.

Definition advice_repo : repository := mk_repo_of [] [("pre-commit"%string, false)] [].


Definition at_hook (c : feed_cursor) (nm : string) : state :=
  mk_state 0 [] [] [] false (mk_cb 0 "pre-commit" [mk_hook (Some nm) c] (Some 0%nat)).

(** * Proofs *)

(** ** Discovery *)

Lemma existsb_eqb_In (x : string) (l : list string) :
  existsb (String.eqb x) l = true <-> In x l.
Proof.
  rewrite existsb_exists. split.
  - intros [y [Hy Heq]]. apply String.eqb_eq in Heq. subst. exact Hy.
  - intros H. exists x. split; [exact H | apply String.eqb_refl].
Qed.

Lemma find_hook_by_name_absent (L : list string) (l : list hook) (n : string) :
  map name l = map Some L -> ~ In n L -> find_hook_by_name l n = Some (l, None).
Proof.
  revert L. induction l as [|h l IH]; intros L Hn Hin; [reflexivity|].
  destruct L as [|y L]; [discriminate|]. simpl in Hn. injection Hn as Hh Hl.
  simpl. rewrite Hh.
  destruct (String.eqb y n) eqn:E.
  - apply String.eqb_eq in E. subst. exfalso. apply Hin. left. reflexivity.
  - rewrite (IH L Hl). reflexivity. intros H. apply Hin. right. exact H.
Qed.

Lemma find_hook_by_name_present (L : list string) (l : list hook) (n : string) :
  map name l = map Some L -> NoDup L -> In n L ->
  exists h l', find_hook_by_name l n = Some (l', Some h) /\ name h = Some n
               /\ map name l' = map Some (remove String.string_dec n L).
Proof.
  revert L. induction l as [|h l IH]; intros L Hn Hnd Hin.
  - destruct L; [destruct Hin | discriminate].
  - destruct L as [|y L]; [discriminate|]. simpl in Hn. injection Hn as Hh Hl.
    inversion Hnd as [|? ? Hy Hnd']; subst.
    simpl. rewrite Hh.
    destruct (String.eqb y n) eqn:E.
    + apply String.eqb_eq in E. subst.
      exists h, l. split; [reflexivity|]. split; [exact Hh|].
      destruct (String.string_dec n n) as [_|C]; [|congruence].
      rewrite notin_remove by exact Hy. exact Hl.
    + assert (Hne : y <> n) by (intro C; subst; rewrite String.eqb_refl in E; discriminate).
      destruct Hin as [Hin|Hin]; [congruence|].
      destruct (IH L Hl Hnd' Hin) as [h' [l' [Hf [Hnm Hmap]]]].
      rewrite Hf. exists h', (h :: l'). split; [reflexivity|]. split; [exact Hnm|].
      destruct (String.string_dec n y) as [C|_]; [congruence|].
      simpl. rewrite Hh, Hmap. reflexivity.
Qed.

Lemma NoDup_remove_str (n : string) (L : list string) :
  NoDup L -> NoDup (remove String.string_dec n L).
Proof.
  induction 1 as [|y L Hy Hnd IH]; [constructor|].
  simpl. destruct (String.string_dec n y); [exact IH|].
  constructor; [|exact IH]. intros C. apply in_remove in C. tauto.
Qed.

Lemma NoDup_remove_app (n : string) (L : list string) :
  NoDup L -> NoDup (remove String.string_dec n L ++ [n]).
Proof.
  intros H. apply NoDup_app; [apply NoDup_remove_str; exact H | constructor; [intros [] | constructor] |].
  intros x Hx [Hy|[]]; subst. apply (remove_In String.string_dec L x). exact Hx.
Qed.

Lemma append_named (L : list string) (l : list hook) (n : string) :
  map name l = map Some L -> NoDup L ->
  exists l', append_or_move_hook l (Some n) = Some l'
             /\ map name l' = map Some (remove String.string_dec n L ++ [n]).
Proof.
  intros Hn Hnd. unfold append_or_move_hook.
  destruct (in_dec String.string_dec n L) as [Hin|Hin].
  - destruct (find_hook_by_name_present L l n Hn Hnd Hin) as [h [l' [Hf [Hh Hm]]]].
    rewrite Hf. eexists. split; [reflexivity|].
    rewrite map_app, map_app, Hm. simpl. rewrite Hh. reflexivity.
  - rewrite (find_hook_by_name_absent L l n Hn Hin). eexists. split; [reflexivity|].
    rewrite notin_remove by exact Hin. rewrite map_app, map_app, Hn. reflexivity.
Qed.

Lemma not_in_cons (x y : string) (xs : list string) :
  not_in (x :: xs) y = negb (String.eqb y x) && not_in xs y.
Proof. unfold not_in. simpl. destruct (String.eqb y x); reflexivity. Qed.

Lemma filter_remove (x : string) (xs L : list string) :
  filter (not_in xs) (remove String.string_dec x L) = filter (not_in (x :: xs)) L.
Proof.
  induction L as [|y L IH]; [reflexivity|].
  simpl. rewrite not_in_cons. destruct (String.string_dec x y) as [E|E].
  - subst. rewrite String.eqb_refl. simpl. exact IH.
  - replace (String.eqb y x) with false
      by (symmetry; apply String.eqb_neq; intro C; apply E; symmetry; exact C).
    simpl. rewrite IH. reflexivity.
Qed.

Lemma register_all_named (ns : list string) (L : list string) (l : list hook) :
  map name l = map Some L -> NoDup L ->
  exists l', register_all l (map Some ns) = Some l'
             /\ map name l' = map Some (filter (not_in ns) L ++ keep_last ns)
             /\ NoDup (filter (not_in ns) L ++ keep_last ns).
Proof.
  revert L l. induction ns as [|x xs IH]; intros L l Hn Hnd.
  - exists l. simpl. rewrite app_nil_r.
    assert (Hf : filter (not_in []) L = L)
      by (clear; induction L as [|y L IHL]; [reflexivity | simpl; rewrite IHL; reflexivity]).
    rewrite Hf. auto.
  - destruct (append_named L l x Hn Hnd) as [l1 [Ha Hm]].
    destruct (IH _ l1 Hm (NoDup_remove_app x L Hnd)) as [l' [Hr [Hm' Hnd']]].
    exists l'. cbn [register_all map]. rewrite Ha, Hr.
    rewrite filter_app, filter_remove in Hm', Hnd'. cbn [filter keep_last] in *.
    unfold not_in at 2 in Hm'. unfold not_in at 2 in Hnd'.
    destruct (existsb (String.eqb x) xs); simpl in *; rewrite <- app_assoc in Hm', Hnd'; simpl in *; auto.
Qed.

Lemma config_scan_register (ev : string) (es : list config_entry) (l : list hook) :
  config_scan ev l es = register_all l (map Some (event_decls ev es)).
Proof.
  revert l. induction es as [|e es IH]; intros l; [reflexivity|].
  cbn [config_scan event_decls].
  unfold hook_config_lookup, event_decl.
  destruct (c_value e) as [v|]; [|apply IH].
  destruct (String.eqb v ev); simpl; [|apply IH].
  destruct (String.eqb (k_section (c_key e)) "hook"); simpl; [|apply IH].
  destruct (String.eqb (k_var (c_key e)) "event"); simpl; [|apply IH].
  destruct (find_hook_by_name l _) as [[? [?|]]|]; try apply IH; reflexivity.
Qed.

Lemma quiet_refl (P : string -> Prop) (s : state) : quiet P s s.
Proof. repeat split. exists []. rewrite app_nil_r. split; [reflexivity | constructor]. Qed.

Lemma quiet_trans (P : string -> Prop) (s1 s2 s3 : state) :
  quiet P s1 s2 -> quiet P s2 s3 -> quiet P s1 s3.
Proof.
  intros [A1 [B1 [C1 [D1 [m1 [E1 F1]]]]]] [A2 [B2 [C2 [D2 [m2 [E2 F2]]]]]].
  repeat split; try congruence. exists (m1 ++ m2).
  rewrite E2, E1, map_app, app_assoc. split; [reflexivity | apply Forall_app; auto].
Qed.

Lemma quiet_weaken (P Q : string -> Prop) (s s' : state) :
  (forall m, P m -> Q m) -> quiet P s s' -> quiet Q s s'.
Proof.
  intros HPQ [A [B [C [D [m [E F]]]]]]. repeat split; auto.
  exists m. split; [exact E | eapply Forall_impl; [exact HPQ | exact F]].
Qed.

Lemma find_hook_result (r : repository) (nm : string) (s : state) :
  exists s', find_hook r nm s
             = Ok (if hookdir_exec r nm then Some (hookdir_path r nm) else None) s'
             /\ quiet is_advice s s'.
Proof.
  unfold find_hook, hookdir_exec.
  destruct (find _ (hookdir r)) as [[x b]|]; [destruct b|].
  - exists s. split; [reflexivity | apply quiet_refl].
  - destruct (advice_ignored_hook r); [|exists s; split; [reflexivity | apply quiet_refl]].
    unfold bind, get. destruct (existsb (String.eqb nm) (advise_given s)).
    + exists s. split; [reflexivity | apply quiet_refl].
    + eexists. split; [reflexivity|]. repeat split.
      exists [ignored_hook_advice (hookdir_path r nm)]. split; [reflexivity|].
      constructor; [eexists; reflexivity | constructor].
  - exists s. split; [reflexivity | apply quiet_refl].
Qed.

Lemma find_hook_by_name_no_cursor (l : list hook) (x : string) ll ff :
  Forall (fun h => feed_pipe_cb_data h = NoCursor) l ->
  find_hook_by_name l x = Some (ll, ff) ->
  Forall (fun h => feed_pipe_cb_data h = NoCursor) ll
  /\ forall h, ff = Some h -> feed_pipe_cb_data h = NoCursor.
Proof.
  revert ll ff. induction l as [|h t IHt]; intros ll ff Hl E.
  - injection E as <- <-. split; [constructor | discriminate].
  - inversion Hl as [|? ? Hh Ht]; subst. simpl in E.
    destruct (name h); [|discriminate].
    destruct (String.eqb s x).
    + injection E as <- <-. split; [exact Ht | intros h' E; injection E as <-; exact Hh].
    + destruct (find_hook_by_name t x) as [[ll' ff']|]; [|discriminate].
      injection E as <- <-. destruct (IHt ll' ff' Ht eq_refl) as [A B].
      split; [constructor; assumption | exact B].
Qed.

Lemma register_all_no_cursor (ns : list string) (l l' : list hook) :
  Forall (fun h => feed_pipe_cb_data h = NoCursor) l ->
  register_all l (map Some ns) = Some l' ->
  Forall (fun h => feed_pipe_cb_data h = NoCursor) l'.
Proof.
  revert l. induction ns as [|x xs IH]; intros l Hl H.
  - injection H as <-. exact Hl.
  - cbn [register_all map] in H. unfold append_or_move_hook in H.
    destruct (find_hook_by_name l x) as [[l1 f]|] eqn:Ef; [|discriminate].
    destruct (find_hook_by_name_no_cursor l x l1 f Hl Ef) as [A B].
    destruct f as [h|]; eapply IH; try exact H; apply Forall_app; split; auto.
Qed.

(** Discovery: the configured identities, each at its last declaration,
    then the hooks-directory hook when there is one. *)
Lemma list_hooks_names (r : repository) (ev : string) (s : state) :
  exists l s', list_hooks r ev s = Ok l s' /\ quiet is_advice s s'
    /\ map name l = map Some (keep_last (event_decls ev r.(config)))
                    ++ (if hookdir_exec r ev then [None] else [])
    /\ NoDup (keep_last (event_decls ev r.(config)))
    /\ Forall (fun h => feed_pipe_cb_data h = NoCursor) l.
Proof.
  destruct (register_all_named (event_decls ev (config r)) [] [] eq_refl (NoDup_nil _))
    as [l0 [Hr [Hm Hnd]]].
  simpl in Hm, Hnd.
  assert (Hc : Forall (fun h => feed_pipe_cb_data h = NoCursor) l0)
    by (eapply register_all_no_cursor; [constructor | exact Hr]).
  unfold list_hooks. rewrite config_scan_register, Hr. cbn [lift ret bind].
  destruct (find_hook_result r ev s) as [s1 [Hf Hq]].
  unfold bind. rewrite Hf. destruct (hookdir_exec r ev).
  - exists (l0 ++ [mk_hook None NoCursor]), s1. simpl. split; [reflexivity|].
    split; [exact Hq|]. split; [rewrite map_app, Hm; reflexivity|]. split; [exact Hnd|].
    apply Forall_app. split; [exact Hc | constructor; [reflexivity | constructor]].
  - exists l0, s1. split; [reflexivity|]. split; [exact Hq|]. rewrite app_nil_r. auto.
Qed.

Lemma register_all_app (l : list hook) (a b : list (option string)) :
  register_all l (a ++ b) = match register_all l a with
                            | Some l' => register_all l' b
                            | None => None
                            end.
Proof.
  revert l. induction a as [|x a IH]; intros l; [reflexivity|].
  simpl. destruct (append_or_move_hook l x); [apply IH | reflexivity].
Qed.

Lemma map_name_nil (l : list hook) (L : list string) (b : bool) :
  map name l = map Some L ++ (if b then [None] else []) -> L = [] -> b = false -> l = [].
Proof. intros H -> ->. destruct l; [reflexivity | discriminate]. Qed.

Lemma advice_not_cannot_find (ev m : string) : is_advice m -> m <> cannot_find_msg ev.
Proof. intros [p ->]. unfold ignored_hook_advice, cannot_find_msg. simpl. discriminate. Qed.

(** A run over an empty hook list. *)
Lemma run_hooks_opt_empty (run_child : child_process -> option Z) (r : repository)
  (ev : string) (options : run_hooks_opt) (s : state) :
  (o_path_to_stdin options = None \/ o_feed_pipe options = false) ->
  event_decls ev r.(config) = [] -> hookdir_exec r ev = false ->
  exists msgs s',
    run_hooks_opt_fn run_child r ev options s
      = Ok (if o_error_if_missing options then -1 else 0) s'
    /\ trace s' = trace s ++ map EvStderr msgs
                  ++ (if o_error_if_missing options then [EvStderr (cannot_find_msg ev)] else [])
    /\ Forall is_advice msgs.
Proof.
  intros Hstdin He Hd.
  destruct (list_hooks_names r ev s) as [l [s1 [Hl [Hq [Hm _]]]]].
  rewrite He, Hd in Hm. simpl in Hm. destruct l; [|discriminate].
  destruct Hq as [_ [_ [_ [_ [msgs [Ht Hadv]]]]]].
  exists msgs. unfold run_hooks_opt_fn, bind at 1. rewrite Hl.
  unfold bind, set_cb, set_invoked, modify, ret.
  destruct (o_invoked_hook_ptr options);
  destruct (o_path_to_stdin options); destruct (o_feed_pipe options);
  try (destruct Hstdin; discriminate);
  destruct (o_error_if_missing options); simpl;
  (eexists; split; [reflexivity|]); simpl; rewrite Ht; split; auto;
  rewrite ?app_nil_r, <- ?app_assoc; reflexivity.
Qed.

Lemma get_string_result (r : repository) (n : string) (s : state) :
  exists s', repo_config_get_string r (hook_command_key n) s = Ok (command_of r n) s'
             /\ quiet (fun _ => True) s s'.
Proof.
  unfold repo_config_get_string, command_of.
  destruct (config_last r (hook_command_key n)) as [[v|]|].
  - exists s. split; [reflexivity | apply quiet_refl].
  - eexists. split; [reflexivity|]. repeat split. eexists (_ :: nil). split; [reflexivity|].
    constructor; constructor.
  - exists s. split; [reflexivity | apply quiet_refl].
Qed.

(** ** The monad *)

Lemma bind_ok {A B} (m : M A) (f : A -> M B) s a s' :
  m s = Ok a s' -> bind m f s = f a s'.
Proof. intros H. unfold bind. rewrite H. reflexivity. Qed.

Lemma bind_died {A B} (m : M A) (f : A -> M B) s msg s' :
  m s = Died msg s' -> bind m f s = Died msg s'.
Proof. intros H. unfold bind. rewrite H. reflexivity. Qed.

Lemma bind_get {B} (f : state -> M B) s : bind get f s = f s s.
Proof. reflexivity. Qed.

Lemma bind_ret {A B} (a : A) (f : A -> M B) s : bind (ret a) f s = f a s.
Proof. reflexivity. Qed.

Lemma bind_lift_some {A B} (o : option A) a (f : A -> M B) s :
  o = Some a -> bind (lift o) f s = f a s.
Proof. intros ->. reflexivity. Qed.

Lemma bind_assoc {A B C} (m : M A) (g : A -> M B) (f : B -> M C) s :
  bind (bind m g) f s = bind m (fun x => bind (g x) f) s.
Proof. unfold bind. destruct (m s); reflexivity. Qed.

(** ** One task *)

Lemma pick_step (r : repository) (options : run_hooks_opt) (s : state) (i : nat) (h : hook) :
  run_me (cb s) = Some i -> nth_error (head (cb s)) i = Some h ->
  (name h = None -> hookdir_exec r (hook_name (cb s)) = true) ->
  (exists msg s', pick_next_hook r options s = Died msg s'
     /\ ((exists n, name h = Some n /\ command_of r n = None)
         \/ (exists p, o_path_to_stdin options = Some p /\ file_contents r p = None)))
  \/ (exists cp s', pick_next_hook r options s = Ok (Some (cp, i)) s'
     /\ (forall n, name h = Some n -> command_of r n <> None)
     /\ (forall p, o_path_to_stdin options = Some p -> file_contents r p <> None)
     /\ cb s' = mk_cb (rc (cb s)) (hook_name (cb s)) (head (cb s))
                      (if Nat.eqb (S i) (length (head (cb s))) then None else Some (S i))
     /\ jobs_cache s' = jobs_cache s /\ invoked_hook s' = invoked_hook s
     /\ (exists msgs, trace s' = trace s ++ map EvStderr msgs)
     /\ stdin_setup options s cp s').
Proof.
  intros Hrm Hnth Hdir.
  unfold pick_next_hook. rewrite bind_get. cbv beta. rewrite Hrm.
  rewrite (bind_lift_some _ h _ _ Hnth).
  (* stdin *)
  assert (Hst : (exists msg, (match o_path_to_stdin options with
               | Some p => fd <- xopen r p;; ret (false, fd)
               | None => if o_feed_pipe options then ret (false, -1) else ret (true, 0)
               end) s = Died msg s /\ exists p, o_path_to_stdin options = Some p /\ file_contents r p = None)
     \/ exists nf s1, (match o_path_to_stdin options with
               | Some p => fd <- xopen r p;; ret (false, fd)
               | None => if o_feed_pipe options then ret (false, -1) else ret (true, 0)
               end) s = Ok nf s1 /\ cb s1 = cb s /\ jobs_cache s1 = jobs_cache s
               /\ invoked_hook s1 = invoked_hook s /\ trace s1 = trace s
               /\ (forall p, o_path_to_stdin options = Some p -> file_contents r p <> None)
               /\ stdin_setup options s (set_cp_in CHILD_PROCESS_INIT (fst nf) (snd nf)) s1).
  { unfold stdin_setup. destruct (o_path_to_stdin options) as [p|].
    - unfold xopen, file_contents. destruct (find _ (files r)) as [[q c]|] eqn:Ef.
      + right. eexists. eexists. split; [reflexivity|]. simpl.
        repeat split; try reflexivity. intros p' E. injection E as <-. rewrite Ef. discriminate.
      + left. eexists. split; [reflexivity|]. exists p. split; [reflexivity|]. rewrite Ef. reflexivity.
    - right. destruct (o_feed_pipe options); eexists; eexists; (split; [reflexivity|]);
      simpl; repeat split; try discriminate. }
  destruct Hst as [[msg [Hd Hp]] | [[nst fd] [s1 [Ho [Hc1 [Hj1 [Hi1 [Ht1 [Hp1 Hsu]]]]]]]]].
  { left. exists msg, s. rewrite (bind_died _ _ _ _ _ Hd). split; [reflexivity | right; exact Hp]. }
  rewrite (bind_ok _ _ _ _ _ Ho). cbv beta iota.
  destruct (name h) as [n|] eqn:Hn.
  - destruct (get_string_result r n s1) as [s2 [Hg Hq]].
    rewrite bind_assoc, (bind_ok _ _ _ _ _ Hg). cbv beta.
    destruct (command_of r n) as [cmd|] eqn:Hcmd.
    + right. rewrite bind_ret, bind_get. cbv beta.
      destruct Hq as [Hj2 [Hf2 [Hi2 [Hc2 [msgs [Ht2 _]]]]]].
      eexists. eexists. split; [reflexivity|].
      split; [intros n' E; injection E as <-; rewrite Hcmd; discriminate|].
      split; [exact Hp1|].
      simpl. rewrite Hc2, Hc1. split; [reflexivity|].
      split; [congruence|]. split; [congruence|]. split; [exists msgs; congruence|].
      unfold stdin_setup in *. destruct (o_path_to_stdin options); rewrite Hf2; exact Hsu.
    + left. eexists. eexists. split; [reflexivity|]. left. exists n. split; [reflexivity | exact Hcmd].
  - destruct (find_hook_result r (hook_name (cb s)) s1) as [s2 [Hg Hq]].
    rewrite bind_assoc, (bind_ok _ _ _ _ _ Hg). rewrite (Hdir eq_refl).
    right. rewrite bind_ret, bind_get. cbv beta.
    destruct Hq as [Hj2 [Hf2 [Hi2 [Hc2 [msgs [Ht2 _]]]]]].
    eexists. eexists. split; [reflexivity|].
    split; [discriminate|]. split; [exact Hp1|].
    simpl. rewrite Hc2, Hc1. split; [reflexivity|].
    split; [congruence|]. split; [congruence|]. split; [exists msgs; congruence|].
    unfold stdin_setup in *. destruct (o_path_to_stdin options); rewrite Hf2; exact Hsu.
Qed.

Lemma replace_at_length {A} t (x : A) l : (t < length l)%nat -> length (replace_at t x l) = length l.
Proof.
  intros H. unfold replace_at. rewrite length_app. cbn [length]. rewrite length_firstn, length_skipn. lia.
Qed.

Lemma replace_at_nth_same {A} t (x : A) l : (t < length l)%nat -> nth_error (replace_at t x l) t = Some x.
Proof.
  intros H. unfold replace_at. rewrite nth_error_app2; rewrite length_firstn; [|lia].
  replace (t - Nat.min t (length l))%nat with 0%nat by lia. reflexivity.
Qed.

Lemma replace_at_nth_other {A} t (x : A) l j :
  (t < length l)%nat -> j <> t -> nth_error (replace_at t x l) j = nth_error l j.
Proof.
  intros H Hj. unfold replace_at.
  destruct (Nat.lt_ge_cases j t) as [Hlt|Hge].
  - rewrite nth_error_app1 by (rewrite length_firstn; lia).
    rewrite nth_error_firstn. destruct (Nat.ltb_spec j t); [reflexivity | lia].
  - rewrite nth_error_app2 by (rewrite length_firstn; lia). rewrite length_firstn.
    replace (j - Nat.min t (length l))%nat with (S (j - S t)) by lia. cbn [nth_error].
    rewrite nth_error_skipn. f_equal. lia.
Qed.

Lemma replace_at_twice {A} t (x y : A) l :
  (t < length l)%nat -> replace_at t x (replace_at t y l) = replace_at t x l.
Proof.
  intros H. unfold replace_at.
  rewrite firstn_app, length_firstn, Nat.min_l by lia.
  rewrite Nat.sub_diag, firstn_O, app_nil_r, firstn_firstn, Nat.min_id.
  rewrite (skipn_app (S t) (firstn t l)). rewrite length_firstn, Nat.min_l by lia.
  replace (S t - t)%nat with 1%nat by lia.
  assert (E : skipn (S t) (firstn t l) = []) by (apply skipn_all2; rewrite length_firstn; lia).
  rewrite E. reflexivity.
Qed.

Lemma skipn_nth_cons {A} (l : list A) k x :
  nth_error l k = Some x -> skipn k l = x :: skipn (S k) l.
Proof.
  revert k. induction l as [|y l IH]; intros k H; [destruct k; discriminate|].
  destruct k as [|k]; simpl in *; [injection H as ->; reflexivity | apply IH; exact H].
Qed.

Lemma feed_task_spec (ctx : list string) (task : nat) :
  forall fuel k s h,
    nth_error (head (cb s)) task = Some h -> cursor_at (feed_pipe_cb_data h) k ->
    (length ctx - k < fuel)%nat ->
    feed_task fuel ctx task s
    = Ok (lines (skipn k ctx))
         (set_head s (replace_at task (mk_hook (name h) FreedCursor) (head (cb s)))).
Proof.
  induction fuel as [|f IH]; intros k s h Hn Hc Hf; [lia|].
  assert (Ht : (task < length (head (cb s)))%nat)
    by (apply nth_error_Some; rewrite Hn; discriminate).
  cbn [feed_task]. unfold pipe_from_string_list.
  rewrite bind_assoc, bind_get. cbv beta. rewrite bind_assoc, (bind_lift_some _ h _ _ Hn).
  assert (Hk : (match feed_pipe_cb_data h with
                | NoCursor => ret 0%nat | Cursor n => ret n | FreedCursor => undefined end) s
               = Ok k s)
    by (destruct Hc as [[-> ->] | ->]; reflexivity).
  rewrite bind_assoc, (bind_ok _ _ _ _ _ Hk). cbv beta.
  destruct (nth_error ctx k) as [line|] eqn:Hl.
  - assert (Hlen : (k < length ctx)%nat) by (apply nth_error_Some; rewrite Hl; discriminate).
    unfold set_cb, modify. rewrite bind_assoc. unfold bind at 1. cbv beta.
    rewrite bind_ret. cbv beta iota. rewrite Z.eqb_refl.
    erewrite bind_ok.
    2:{ apply (IH (S k) _ (mk_hook (name h) (Cursor (S k)))).
        - apply (replace_at_nth_same task _ (head (cb s))). exact Ht.
        - right. reflexivity.
        - lia. }
    unfold ret, set_head. cbn [head cb rc hook_name run_me jobs_cache advise_given fds trace invoked_hook].
    rewrite (skipn_nth_cons ctx k line Hl). cbn [lines].
    change (firstn task (head (cb s)) ++ mk_hook (name h) (Cursor (S k)) :: skipn (S task) (head (cb s)))
      with (replace_at task (mk_hook (name h) (Cursor (S k))) (head (cb s))).
    rewrite replace_at_twice by exact Ht. reflexivity.
  - assert (Hlen : (length ctx <= k)%nat) by (apply nth_error_None; exact Hl).
    assert (E : skipn k ctx = []) by (apply skipn_all2; exact Hlen). rewrite E.
    unfold set_cb, modify. rewrite bind_assoc. unfold bind at 1. cbv beta.
    rewrite bind_ret. reflexivity.
Qed.

Lemma substring_all (c : string) : substring 0 (String.length c) c = c.
Proof. induction c as [|a c IH]; [reflexivity | simpl; rewrite IH; reflexivity]. Qed.

Lemma nth_error_app_end {A} (l : list A) (x : A) : nth_error (l ++ [x]) (length l) = Some x.
Proof. rewrite nth_error_app2 by lia. rewrite Nat.sub_diag. reflexivity. Qed.

Lemma child_stdin_step (r : repository) (options : run_hooks_opt) (opts : pp_opts)
  (fuel_feed : nat) (cp : child_process) (i : nat) (s0 s1 : state) (h : hook) :
  pp_feed_pipe opts = o_feed_pipe options ->
  (o_path_to_stdin options = None \/ o_feed_pipe options = false) ->
  (length (o_feed_pipe_ctx options) < fuel_feed)%nat ->
  stdin_setup options s0 cp s1 ->
  (forall p, o_path_to_stdin options = Some p -> file_contents r p <> None) ->
  nth_error (head (cb s1)) i = Some h -> feed_pipe_cb_data h = NoCursor ->
  exists d s2, child_stdin r options opts fuel_feed cp i s1 = Ok d s2
    /\ stdin_ok r options d
    /\ jobs_cache s2 = jobs_cache s1 /\ invoked_hook s2 = invoked_hook s1
    /\ trace s2 = trace s1
    /\ rc (cb s2) = rc (cb s1) /\ hook_name (cb s2) = hook_name (cb s1)
    /\ run_me (cb s2) = run_me (cb s1)
    /\ (head (cb s2) = head (cb s1)
        \/ head (cb s2) = replace_at i (mk_hook (name h) FreedCursor) (head (cb s1))).
Proof.
  intros Hfp Hstdin Hfuel Hsu Hfile Hn Hc.
  unfold stdin_setup, stdin_ok in *. unfold child_stdin.
  destruct (o_path_to_stdin options) as [p|] eqn:Ep.
  - destruct Hsu as [Hfds [Hin Hns]]. rewrite Hns.
    replace (cp_in cp =? -1) with false by (symmetry; apply Z.eqb_neq; lia).
    rewrite bind_get. cbv beta.
    replace (Z.to_nat (cp_in cp - 3)) with (length (fds s0)) by lia.
    rewrite Hfds, (bind_lift_some _ (p, 0%nat) _ _ (nth_error_app_end _ _)).
    destruct (file_contents r p) as [c|] eqn:Ec; [|exfalso; exact (Hfile p eq_refl Ec)].
    unfold file_contents in Ec. cbv beta iota. rewrite Ec. cbn [lift ret].
    eexists. eexists. split; [reflexivity|].
    rewrite Nat.sub_0_r, substring_all.
    repeat split; auto.
  - destruct (o_feed_pipe options) eqn:Ef.
    + destruct Hsu as [Hfds [Hin Hns]]. rewrite Hns, Hin, Hfp. cbn [negb Z.eqb Pos.eqb].
      rewrite (bind_ok _ _ _ _ _ (feed_task_spec (o_feed_pipe_ctx options) i fuel_feed 0 s1 h Hn (or_introl (conj Hc eq_refl)) ltac:(lia))).
      eexists. eexists. split; [reflexivity|]. repeat split; auto.
    + destruct Hsu as [Hfds Hns]. rewrite Hns.
      eexists. eexists. split; [reflexivity|]. repeat split; auto.
Qed.

Lemma notify_start_failure_step (out : bool) (i : nat) (s : state) (h : hook) :
  nth_error (head (cb s)) i = Some h ->
  exists s', notify_start_failure out i s = Ok 1 s'
    /\ cb s' = mk_cb (Z.lor (rc (cb s)) 1) (hook_name (cb s)) (head (cb s)) (run_me (cb s))
    /\ jobs_cache s' = jobs_cache s /\ invoked_hook s' = invoked_hook s /\ fds s' = fds s
    /\ exists msgs, trace s' = trace s ++ map EvStderr msgs.
Proof.
  intros Hn. unfold notify_start_failure, set_cb, modify, get, bind, ret.
  destruct out.
  - unfold lift, emit, modify. rewrite Hn.
    eexists. split; [reflexivity|]. cbn. repeat split. eexists (_ :: nil). reflexivity.
  - eexists. split; [reflexivity|]. cbn. repeat split. exists []. rewrite app_nil_r. reflexivity.
Qed.

Lemma notify_hook_finished_step (options : run_hooks_opt) (st : Z) (s : state) :
  exists s', notify_hook_finished options st s = Ok 0 s'
    /\ cb s' = mk_cb (Z.lor (rc (cb s)) st) (hook_name (cb s)) (head (cb s)) (run_me (cb s))
    /\ jobs_cache s' = jobs_cache s
    /\ invoked_hook s' = (invoked_hook s || o_invoked_hook_ptr options)
    /\ trace s' = trace s.
Proof.
  unfold notify_hook_finished, set_cb, set_invoked, modify, get, bind, ret.
  destruct (o_invoked_hook_ptr options); eexists; (split; [reflexivity|]); cbn;
  repeat split; try rewrite orb_true_r; try rewrite orb_false_r; reflexivity.
Qed.

Lemma pp_loop_done run_child r options opts fuel_feed f s :
  run_me (cb s) = None -> pp_loop run_child r options opts fuel_feed (S f) s = Ok tt s.
Proof.
  intros H. cbn [pp_loop]. unfold pick_next_hook. rewrite bind_assoc, bind_get. cbv beta.
  rewrite H. reflexivity.
Qed.

Lemma bind_emit {B} (e : event) (f : unit -> M B) (s : state) :
  bind (emit e) f s = f tt (mk_state (jobs_cache s) (advise_given s) (fds s)
                                      (trace s ++ [e]) (invoked_hook s) (cb s)).
Proof. reflexivity. Qed.

Lemma map_replace_at {A B} (f : A -> B) t (x y : A) l :
  nth_error l t = Some y -> f x = f y -> map f (replace_at t x l) = map f l.
Proof.
  unfold replace_at. revert t; induction l as [|a l IH]; intros [|t] Hn Hf; try discriminate.
  - cbn in *. injection Hn as ->. rewrite Hf. reflexivity.
  - cbn [nth_error] in Hn. specialize (IH t Hn Hf).
    cbn [firstn skipn app map]. f_equal. exact IH.
Qed.

Lemma head_rel_replace i h l :
  nth_error l i = Some h -> head_rel i l (replace_at i (mk_hook (name h) FreedCursor) l).
Proof.
  intros Hn. assert (Hl : (i < length l)%nat) by (apply nth_error_Some; congruence).
  split; [|split].
  - apply replace_at_length; exact Hl.
  - intros j Hj. apply replace_at_nth_other; assumption.
  - apply (map_replace_at name i _ h); [exact Hn | reflexivity].
Qed.

Lemma head_rel_refl i l : head_rel i l l.
Proof. split; [reflexivity | split; reflexivity]. Qed.

Lemma statuses_app l1 l2 : statuses (l1 ++ l2) = statuses l1 ++ statuses l2.
Proof. unfold statuses. apply flat_map_app. Qed.

Lemma statuses_stderr msgs : statuses (map EvStderr msgs) = [].
Proof. induction msgs; cbn; auto. Qed.

Lemma is_task_stderr msgs : existsb is_task (map EvStderr msgs) = false.
Proof. induction msgs; cbn; auto. Qed.

(** ** The executor loop *)

Lemma pp_loop_spec run_child r options opts fuel_feed :
  pp_feed_pipe opts = o_feed_pipe options ->
  (o_path_to_stdin options = None \/ o_feed_pipe options = false) ->
  (length (o_feed_pipe_ctx options) < fuel_feed)%nat ->
  forall fuel i s, loop_inv r s i -> (length (head (cb s)) - i < fuel)%nat ->
  (exists msg s', pp_loop run_child r options opts fuel_feed fuel s = Died msg s'
     /\ exists j h, (i <= j)%nat /\ nth_error (head (cb s)) j = Some h /\ missing_at r options h)
  \/ (exists new s', pp_loop run_child r options opts fuel_feed fuel s = Ok tt s'
     /\ (forall j h, (i <= j)%nat -> nth_error (head (cb s)) j = Some h -> ~ missing_at r options h)
     /\ trace s' = trace s ++ new
     /\ rc (cb s') = Z.lor (rc (cb s)) (or_all (statuses new))
     /\ length (statuses new) = (length (head (cb s)) - i)%nat
     /\ invoked_hook s' = (invoked_hook s || (o_invoked_hook_ptr options && existsb is_task new))
     /\ jobs_cache s' = jobs_cache s
     /\ hook_name (cb s') = hook_name (cb s)
     /\ Forall (task_stdin_ok r options) new
     /\ Forall not_run_parallel new
     /\ Forall (start_failed_ok run_child) new).
Proof.
  intros Hfp Hone Hff fuel. induction fuel as [|f IH]; intros i s Hinv Hf; [lia|].
  destruct Hinv as (Hrun & Hle & Hcur & Hdir).
  destruct (Nat.eqb_spec i (length (head (cb s)))) as [Hi|Hi].
  - right. exists [], s. split; [apply pp_loop_done; exact Hrun|].
    split; [intros j h Hj Hn; assert (Hs : nth_error (head (cb s)) j <> None) by congruence;
            apply nth_error_Some in Hs; lia|].
    cbn [existsb]. rewrite app_nil_r, Z.lor_0_r, andb_false_r, orb_false_r.
    repeat split; try reflexivity; try constructor. cbn. lia.
  - assert (Hlt : (i < length (head (cb s)))%nat) by lia.
    destruct (nth_error (head (cb s)) i) as [h|] eqn:Hh;
      [|apply nth_error_None in Hh; lia].
    assert (Hhd : name h = None -> hookdir_exec r (hook_name (cb s)) = true).
    { intros Hnm. apply Hdir. rewrite <- Hnm. apply in_map. eapply nth_error_In; exact Hh. }
    destruct (pick_step r options s i h Hrun Hh Hhd) as
      [(msg & s' & Hp & Hm) | (cp & s1 & Hp & Hcmd & Hfile & Hcb1 & Hj1 & Hinv1 & (msgs1 & Htr1) & Hsetup)].
    + left. exists msg, s'. split.
      * cbn [pp_loop]. apply bind_died. exact Hp.
      * exists i, h. split; [lia|]. split; [exact Hh|]. exact Hm.
    + cbn [pp_loop]. rewrite (bind_ok _ _ _ _ _ Hp). cbv beta iota.
      destruct (run_child cp) as [status|] eqn:Hrc.
      * (* the child runs *)
        assert (Hh1 : nth_error (head (cb s1)) i = Some h) by (rewrite Hcb1; exact Hh).
        destruct (child_stdin_step r options opts fuel_feed cp i s s1 h Hfp Hone Hff Hsetup Hfile Hh1
                   (Hcur i h (le_n i) Hh))
          as (d & s2 & Hcs & Hok & Hj2 & Hinv2 & Htr2 & Hrc2 & Hhn2 & Hrun2 & Hhead2).
        rewrite (bind_ok _ _ _ _ _ Hcs). cbv beta. rewrite bind_emit.
        set (s2' := mk_state _ _ _ _ _ _).
        destruct (notify_hook_finished_step options status s2') as (s3 & Hn3 & Hcb3 & Hj3 & Hinv3 & Htr3).
        rewrite (bind_ok _ _ _ _ _ Hn3).
        assert (Hrel : head_rel i (head (cb s)) (head (cb s3))).
        { rewrite Hcb3. cbn [head cb s2']. rewrite Hcb1 in Hhead2. cbn [head] in Hhead2.
          destruct Hhead2 as [-> | ->]; [apply head_rel_refl | apply head_rel_replace; exact Hh]. }
        destruct Hrel as (Hlen3 & Hnth3 & Hnames3).
        assert (Hhn3 : hook_name (cb s3) = hook_name (cb s)).
        { rewrite Hcb3. cbn. rewrite Hhn2, Hcb1. reflexivity. }
        assert (Hinv' : loop_inv r s3 (S i)).
        { split; [|split; [|split]].
          - rewrite Hlen3, Hcb3. cbn [run_me cb s2']. rewrite Hrun2, Hcb1. reflexivity.
          - rewrite Hlen3. lia.
          - intros j h' Hj Hn'. rewrite Hnth3 in Hn' by lia. apply (Hcur j); [lia|exact Hn'].
          - rewrite Hnames3, Hhn3. exact Hdir. }
        destruct (IH (S i) s3 Hinv' ltac:(rewrite Hlen3; lia)) as
          [(msg & s' & Hd & j & h' & Hj & Hn' & Hm) | (new & s' & Hl & Hall & Htr & Hrcx & Hst & Hinvx & Hjx & Hhnx & Hfa & Hfb & Hfc)].
        -- left. exists msg, s'. split; [exact Hd|]. exists j, h'. split; [lia|].
           rewrite Hnth3 in Hn' by lia. split; assumption.
        -- right. exists (map EvStderr msgs1 ++ EvTask cp d status :: new), s'.
           split; [exact Hl|]. split.
           { intros j h' Hj Hn' Hm. destruct (Nat.eq_dec j i) as [->|Hne].
             - rewrite Hh in Hn'. injection Hn' as <-.
               destruct Hm as [(n & Hn & Hc) | (p & Hp' & Hc)]; [exact (Hcmd n Hn Hc) | exact (Hfile p Hp' Hc)].
             - apply (Hall j h'); [lia| rewrite Hnth3 by lia; exact Hn' | exact Hm]. }
           rewrite statuses_app, statuses_stderr. cbn [app statuses flat_map task_status].
           fold (statuses new).
           split; [rewrite Htr, Htr3; cbn [trace s2']; rewrite Htr2, Htr1, <- !app_assoc; reflexivity|].
           split; [rewrite Hrcx, Hcb3; cbn [rc cb s2' or_all fold_right app]; rewrite Hrc2, Hcb1;
                   cbn [rc]; rewrite Z.lor_assoc; reflexivity|].
           split; [cbn [length app]; rewrite Hst, Hlen3; lia|].
           split; [rewrite Hinvx, Hinv3; cbn [invoked_hook s2']; rewrite Hinv2, Hinv1, existsb_app,
                   is_task_stderr; cbn [existsb is_task orb];
                   destruct (invoked_hook s), (o_invoked_hook_ptr options), (existsb is_task new); reflexivity|].
           split; [rewrite Hjx, Hj3; cbn [jobs_cache s2']; rewrite Hj2, Hj1; reflexivity|].
           split; [rewrite Hhnx; exact Hhn3|].
           split; [|split]; apply Forall_app; split;
             try (apply Forall_forall; intros e He; apply in_map_iff in He;
                  destruct He as (m & <- & _); exact I).
           ++ constructor; [exact Hok | exact Hfa].
           ++ constructor; [exact I | exact Hfb].
           ++ constructor; [exact I | exact Hfc].
      * (* the child cannot be started *)
        rewrite bind_emit.
        set (s2' := mk_state _ _ _ _ _ _).
        assert (Hh2 : nth_error (head (cb s2')) i = Some h) by (cbn [cb s2']; rewrite Hcb1; exact Hh).
        destruct (notify_start_failure_step (negb (pp_ungroup opts)) i s2' h Hh2)
          as (s3 & Hn3 & Hcb3 & Hj3 & Hinv3 & _ & (msgs3 & Htr3)).
        rewrite (bind_ok _ _ _ _ _ Hn3).
        assert (Hhead3 : head (cb s3) = head (cb s)) by (rewrite Hcb3; cbn [head cb s2']; rewrite Hcb1; reflexivity).
        assert (Hhn3 : hook_name (cb s3) = hook_name (cb s)) by (rewrite Hcb3; cbn [hook_name cb s2']; rewrite Hcb1; reflexivity).
        assert (Hinv' : loop_inv r s3 (S i)).
        { split; [|split; [|split]].
          - rewrite Hhead3, Hcb3. cbn [run_me cb s2']. rewrite Hcb1. reflexivity.
          - rewrite Hhead3. lia.
          - intros j h' Hj Hn'. rewrite Hhead3 in Hn'. apply (Hcur j); [lia|exact Hn'].
          - rewrite Hhead3, Hhn3. exact Hdir. }
        destruct (IH (S i) s3 Hinv' ltac:(rewrite Hhead3; lia)) as
          [(msg & s' & Hd & j & h' & Hj & Hn' & Hm) | (new & s' & Hl & Hall & Htr & Hrcx & Hst & Hinvx & Hjx & Hhnx & Hfa & Hfb & Hfc)].
        -- left. exists msg, s'. split; [exact Hd|]. exists j, h'. split; [lia|].
           rewrite Hhead3 in Hn'. split; assumption.
        -- right. exists (map EvStderr msgs1 ++ EvStartFailed cp :: map EvStderr msgs3 ++ new), s'.
           split; [exact Hl|]. split.
           { intros j h' Hj Hn' Hm. destruct (Nat.eq_dec j i) as [->|Hne].
             - rewrite Hh in Hn'. injection Hn' as <-.
               destruct Hm as [(n & Hn & Hc) | (p & Hp' & Hc)]; [exact (Hcmd n Hn Hc) | exact (Hfile p Hp' Hc)].
             - apply (Hall j h'); [lia| rewrite Hhead3; exact Hn' | exact Hm]. }
           rewrite statuses_app, statuses_stderr. cbn [app statuses flat_map task_status].
           fold (statuses (map EvStderr msgs3 ++ new)). rewrite statuses_app, statuses_stderr. cbn [app].
           split; [rewrite Htr, Htr3; cbn [trace s2']; rewrite Htr1, <- !app_assoc; reflexivity|].
           split; [rewrite Hrcx, Hcb3; cbn [rc cb s2' or_all fold_right app]; rewrite Hcb1;
                   cbn [rc]; rewrite Z.lor_assoc; reflexivity|].
           split; [cbn [length app]; rewrite Hst, Hhead3; lia|].
           split; [rewrite Hinvx, Hinv3; cbn [invoked_hook s2']; rewrite Hinv1, existsb_app,
                   is_task_stderr; cbn [existsb is_task orb]; rewrite existsb_app, is_task_stderr;
                   reflexivity|].
           split; [rewrite Hjx, Hj3; cbn [jobs_cache s2']; rewrite Hj1; reflexivity|].
           split; [rewrite Hhnx; exact Hhn3|].
           split; [|split]; repeat (apply Forall_app; split); try (constructor; [first [exact I | exact Hrc]|]);
             try (apply Forall_app; split); try assumption;
             apply Forall_forall; intros e He; apply in_map_iff in He; destruct He as (m & <- & _); exact I.
Qed.

Lemma bind_modify {B} (f : state -> state) (k : unit -> M B) (s : state) :
  bind (modify f) k s = k tt (f s).
Proof. reflexivity. Qed.

Lemma jobs_step (r : repository) (options : run_hooks_opt) (s : state) :
  match resolved_jobs r options (jobs_cache s) with
  | Some j => exists s', (if o_jobs options =? 0 then configured_hook_jobs r else ret (o_jobs options)) s = Ok j s'
                /\ cb s' = cb s /\ trace s' = trace s /\ invoked_hook s' = invoked_hook s /\ fds s' = fds s
  | None => exists msg s', (if o_jobs options =? 0 then configured_hook_jobs r else ret (o_jobs options)) s = Died msg s'
  end.
Proof.
  unfold resolved_jobs. destruct (o_jobs options =? 0).
  - unfold configured_hook_jobs. rewrite bind_get.
    destruct (negb (jobs_cache s =? 0)).
    + exists s. repeat split.
    + unfold repo_config_get_int. destruct (config_last r hook_jobs_key) as [[v|]|].
      * destruct (git_parse_int v).
        -- rewrite bind_ret. unfold set_jobs_cache. rewrite bind_modify. eexists. repeat split.
        -- do 2 eexists. reflexivity.
      * do 2 eexists. reflexivity.
      * rewrite bind_ret. unfold set_jobs_cache. rewrite bind_modify. eexists. repeat split.
  - exists s. repeat split.
Qed.

Lemma names_in_none (r : repository) (ev : string) (l : list hook) :
  map name l = hook_names r ev -> In None (map name l) -> hookdir_exec r ev = true.
Proof.
  intros Hm Hin. rewrite Hm in Hin. unfold hook_names in Hin.
  destruct (hookdir_exec r ev); [reflexivity|].
  rewrite app_nil_r in Hin. apply in_map_iff in Hin. destruct Hin as (x & Hx & _). discriminate.
Qed.

(** ** Whole runs *)

Lemma run_hooks_opt_run (run_child : child_process -> option Z) (r : repository)
  (ev : string) (options : run_hooks_opt) (s : state) :
  (o_path_to_stdin options = None \/ o_feed_pipe options = false) ->
  hook_names r ev <> [] ->
  exists l s1, list_hooks r ev s = Ok l s1 /\ map name l = hook_names r ev
  /\ ((exists msg s', run_hooks_opt_fn run_child r ev options s = Died msg s'
        /\ (resolved_jobs r options (jobs_cache s) = None
            \/ exists j h, nth_error l j = Some h /\ missing_at r options h))
      \/ (exists jobs new s', resolved_jobs r options (jobs_cache s) = Some jobs
          /\ run_hooks_opt_fn run_child r ev options s = Ok (or_all (statuses new)) s'
          /\ (forall j h, nth_error l j = Some h -> ~ missing_at r options h)
          /\ (exists msgs, trace s' = trace s ++ map EvStderr msgs
                ++ EvRunParallel (mk_pp ev 1 ((jobs =? 1) || Nat.eqb 1 (length l))
                                   (o_feed_pipe options) (o_consume_sideband options)) :: new)
          /\ length (statuses new) = length l
          /\ invoked_hook s' = (if o_invoked_hook_ptr options then existsb is_task new else invoked_hook s)
          /\ Forall (task_stdin_ok r options) new
          /\ Forall not_run_parallel new
          /\ Forall (start_failed_ok run_child) new)).
Proof.
  intros Hone Hne.
  destruct (list_hooks_names r ev s) as (l & s1 & Hl & Hq & Hm & _ & Hcur).
  fold (hook_names r ev) in Hm.
  exists l, s1. split; [exact Hl|]. split; [exact Hm|].
  destruct Hq as (Hj1 & _ & Hi1 & _ & (msgs1 & Htr1 & _)).
  assert (Hlne : l <> []) by (intros ->; apply Hne; rewrite <- Hm; reflexivity).
  assert (Hemp : is_empty l = false) by (destruct l; [congruence | reflexivity]).
  unfold run_hooks_opt_fn. rewrite (bind_ok _ _ _ _ _ Hl). cbv beta.
  unfold set_cb. rewrite bind_modify.
  set (s2 := mk_state _ _ _ _ _ (mk_cb 0 ev l (Some 0%nat))).
  set (s3 := if o_invoked_hook_ptr options
             then mk_state (jobs_cache s2) (advise_given s2) (fds s2) (trace s2) false (cb s2) else s2).
  assert (Hs3 : forall B (k : unit -> M B),
             bind (if o_invoked_hook_ptr options then set_invoked false else ret tt) k s2 = k tt s3)
    by (intros B k; unfold s3; destruct (o_invoked_hook_ptr options); reflexivity).
  rewrite Hs3.
  assert (Hcb3 : cb s3 = mk_cb 0 ev l (Some 0%nat)) by (unfold s3; destruct (o_invoked_hook_ptr options); reflexivity).
  assert (Htr3 : trace s3 = trace s ++ map EvStderr msgs1) by (unfold s3; destruct (o_invoked_hook_ptr options); exact Htr1).
  assert (Hjc3 : jobs_cache s3 = jobs_cache s) by (unfold s3; destruct (o_invoked_hook_ptr options); exact Hj1).
  assert (Hin3 : invoked_hook s3 = (if o_invoked_hook_ptr options then false else invoked_hook s1))
    by (unfold s3; destruct (o_invoked_hook_ptr options); reflexivity).
  clearbody s3. clear Hs3.
  assert (Hdef : forall (X : M Z),
    (match o_path_to_stdin options, o_feed_pipe options with
     | Some _, true => BUG "choose only one method to populate stdin"
     | _, _ => X end) = X)
    by (intros X; destruct Hone as [-> | ->]; [destruct (o_feed_pipe options) | destruct (o_path_to_stdin options)]; reflexivity).
  rewrite Hdef. clear Hdef.
  rewrite Hemp. cbn [andb negb].
  pose proof (jobs_step r options s3) as Hjs. rewrite Hjc3 in Hjs.
  destruct (resolved_jobs r options (jobs_cache s)) as [jobs|] eqn:Hres.
  2:{ destruct Hjs as (msg & s' & Hd). left. exists msg, s'. split; [|left; reflexivity].
      apply bind_died. exact Hd. }
  destruct Hjs as (s4 & Hj4 & Hcb4 & Htr4 & Hin4 & _).
  rewrite (bind_ok _ _ _ _ _ Hj4). cbv beta.
  unfold run_processes_parallel. rewrite bind_assoc, bind_emit.
  set (opts := mk_pp _ _ _ _ _).
  set (s5 := mk_state _ _ _ _ _ (cb s4)).
  assert (Hinv : loop_inv r s5 0).
  { unfold loop_inv. cbn [cb s5]. rewrite Hcb4, Hcb3. cbn [run_me head hook_name].
    split; [destruct l; [congruence | reflexivity]|].
    split; [lia|]. split.
    - intros j h _ Hn. rewrite Forall_forall in Hcur. apply Hcur. eapply nth_error_In; exact Hn.
    - apply names_in_none. exact Hm. }
  assert (Hl5 : head (cb s5) = l) by (cbn [cb s5]; rewrite Hcb4, Hcb3; reflexivity).
  destruct (pp_loop_spec run_child r options opts (S (length l + length (o_feed_pipe_ctx options)))
              eq_refl Hone ltac:(lia) (S (length l + length (o_feed_pipe_ctx options))) 0 s5 Hinv
              ltac:(rewrite Hl5; lia))
    as [(msg & s' & Hd & j & h & _ & Hn & Hmis) | (new & s' & Hok & Hall & Htr & Hrc & Hst & Hinvx & _ & _ & Hfa & Hfb & Hfc)].
  - left. exists msg, s'. split; [apply bind_died; exact Hd|]. right. exists j, h.
    rewrite Hl5 in Hn. split; assumption.
  - right. exists jobs, new, s'. split; [reflexivity|].
    split.
    { cbv beta. rewrite (bind_ok _ _ _ _ _ Hok), bind_get. cbv beta. rewrite Hrc. cbn [cb s5].
      rewrite Hcb4, Hcb3. reflexivity. }
    split; [intros j h Hn; apply (Hall j h); [lia | rewrite Hl5; exact Hn]|].
    split; [exists msgs1; rewrite Htr; cbn [trace s5]; rewrite Htr4, Htr3, <- !app_assoc; reflexivity|].
    split; [rewrite Hst, Hl5; lia|].
    split; [rewrite Hinvx; cbn [invoked_hook s5]; rewrite Hin4, Hin3;
            destruct (o_invoked_hook_ptr options); [reflexivity | cbn; rewrite orb_false_r; exact Hi1]|].
    split; [|split]; assumption.
Qed.

Lemma keep_last_nil (l : list string) : keep_last l = [] -> l = [].
Proof.
  induction l as [|x xs IH]; [reflexivity|]. cbn [keep_last].
  destruct (existsb (String.eqb x) xs) eqn:E; [|discriminate].
  intros H. specialize (IH H). subst. discriminate.
Qed.

Lemma or_all_perm (l l' : list Z) : Permutation l l' -> or_all l = or_all l'.
Proof.
  unfold or_all. induction 1 as [| x l l' _ IH | x y l | l l' l'' _ IH1 _ IH2].
  - reflexivity.
  - cbn [fold_right]. rewrite IH. reflexivity.
  - cbn [fold_right]. rewrite !Z.lor_assoc, (Z.lor_comm y x). reflexivity.
  - rewrite IH1. exact IH2.
Qed.

Lemma task_inputs_app t1 t2 : task_inputs (t1 ++ t2) = task_inputs t1 ++ task_inputs t2.
Proof. induction t1 as [|e t1 IH]; [reflexivity|]. destruct e; cbn; rewrite ?IH; reflexivity. Qed.

Lemma task_inputs_ok (P : option string -> Prop) r options new :
  (forall d, stdin_ok r options d -> P d) ->
  Forall (task_stdin_ok r options) new -> Forall P (task_inputs new).
Proof.
  intros HP. induction 1 as [|e new He _ IH]; [constructor|].
  destruct e; cbn; try exact IH. constructor; [apply HP; exact He | exact IH].
Qed.

Lemma task_inputs_count run_child new :
  (forall cp, run_child cp <> None) -> Forall (start_failed_ok run_child) new ->
  length (task_inputs new) = length (statuses new).
Proof.
  intros Hall. induction 1 as [|e new He _ IH]; [reflexivity|].
  destruct e; cbn in *; try exact IH; try (f_equal; exact IH).
  exfalso. exact (Hall _ He).
Qed.

Lemma run_ok_facts run_child r ev options s v s' :
  (o_path_to_stdin options = None \/ o_feed_pipe options = false) ->
  (0 < length (hook_names r ev))%nat ->
  run_hooks_opt_fn run_child r ev options s = Ok v s' ->
  exists jobs msgs new, resolved_jobs r options (jobs_cache s) = Some jobs
    /\ v = or_all (statuses new)
    /\ trace s' = trace s ++ map EvStderr msgs
         ++ EvRunParallel (mk_pp ev 1 ((jobs =? 1) || Nat.eqb 1 (length (hook_names r ev)))
                            (o_feed_pipe options) (o_consume_sideband options)) :: new
    /\ length (statuses new) = length (hook_names r ev)
    /\ invoked_hook s' = (if o_invoked_hook_ptr options then existsb is_task new else invoked_hook s)
    /\ Forall (task_stdin_ok r options) new
    /\ Forall not_run_parallel new
    /\ Forall (start_failed_ok run_child) new
    /\ (forall n, In (Some n) (hook_names r ev) -> command_of r n <> None)
    /\ (forall p, o_path_to_stdin options = Some p -> file_contents r p <> None).
Proof.
  intros Hone Hlen Hrun.
  assert (Hne : hook_names r ev <> []) by (intros E; rewrite E in Hlen; cbn in Hlen; lia).
  destruct (run_hooks_opt_run run_child r ev options s Hone Hne) as
    (l & s1 & _ & Hm & [(msg & s2 & Hd & _) | (jobs & new & s2 & Hres & Hok & Hall & (msgs & Htr) & Hst & Hinv & Hfa & Hfb & Hfc)]);
    [congruence|].
  rewrite Hrun in Hok. injection Hok as Hv Hs. subst s2.
  assert (Hlen' : length l = length (hook_names r ev)) by (rewrite <- Hm, length_map; reflexivity).
  exists jobs, msgs, new. rewrite <- Hlen'.
  do 8 (split; [assumption|]). split.
  - intros n Hin Hc. rewrite <- Hm in Hin. apply in_map_iff in Hin. destruct Hin as (h & Hh & Hin).
    apply In_nth_error in Hin. destruct Hin as (j & Hj).
    apply (Hall j h Hj). left. exists n. split; assumption.
  - intros p Hp Hc. destruct l as [|h l]; [cbn in Hlen'; lia|].
    apply (Hall 0%nat h eq_refl). right. exists p. split; assumption.
Qed.

(** ** Dispatch, discovery and the entry points *)

Lemma bind_ok_inv {A B} (m : M A) (f : A -> M B) s b s' :
  bind m f s = Ok b s' -> exists a s1, m s = Ok a s1 /\ f a s1 = Ok b s'.
Proof. unfold bind. destruct (m s) as [a s1| | |]; try discriminate. intros H. exists a, s1. auto. Qed.

Lemma get_string_frame (r : repository) (k : config_key) (s s' : state) v :
  repo_config_get_string r k s = Ok v s' ->
  cb s' = cb s /\ exists msgs, trace s' = trace s ++ map EvStderr msgs.
Proof.
  unfold repo_config_get_string, error, emit, modify, bind, ret.
  destruct (config_last r k) as [[x|]|]; intros H; injection H as _ <-; cbn.
  - split; [reflexivity|]. exists []. rewrite app_nil_r. reflexivity.
  - split; [reflexivity|]. exists [("error: " ++ "missing value for '" ++ key_to_string k ++ "'")%string]. reflexivity.
  - split; [reflexivity|]. exists []. rewrite app_nil_r. reflexivity.
Qed.

Lemma pick_none (r : repository) (options : run_hooks_opt) (s s' : state) :
  pick_next_hook r options s = Ok None s' -> run_me (cb s) = None /\ s' = s.
Proof.
  unfold pick_next_hook. rewrite bind_get. cbv beta.
  destruct (run_me (cb s)) as [i|] eqn:Hi.
  - intros H. exfalso.
    apply bind_ok_inv in H. destruct H as (h & s1 & _ & H).
    apply bind_ok_inv in H. destruct H as ([nst fd] & s2 & _ & H). cbv beta iota in H.
    apply bind_ok_inv in H. destruct H as (a0 & s3 & _ & H).
    rewrite bind_get in H. unfold set_cb in H. rewrite bind_modify in H. discriminate.
  - intros H. injection H as <-. split; reflexivity.
Qed.

Lemma pick_cp (r : repository) (options : run_hooks_opt) (s s' : state) cp i :
  pick_next_hook r options s = Ok (Some (cp, i)) s' ->
  exists h, run_me (cb s) = Some i /\ nth_error (head (cb s)) i = Some h
    /\ hook_cp r options (hook_name (cb s)) (name h) cp
    /\ cb s' = mk_cb (rc (cb s)) (hook_name (cb s)) (head (cb s))
                     (if Nat.eqb (S i) (length (head (cb s))) then None else Some (S i))
    /\ exists msgs, trace s' = trace s ++ map EvStderr msgs.
Proof.
  unfold pick_next_hook. rewrite bind_get. cbv beta.
  destruct (run_me (cb s)) as [i0|] eqn:Hi; [|discriminate].
  intros H. apply bind_ok_inv in H. destruct H as (h & s1 & Hh & H).
  unfold lift in Hh. destruct (nth_error (head (cb s)) i0) as [h0|] eqn:Hn; [|discriminate].
  injection Hh as Eh Es. subst h0 s1.
  apply bind_ok_inv in H. destruct H as ([nst fd] & s2 & Hst & H). cbv beta iota in H.
  (* the stdin setup leaves cb and trace alone *)
  assert (Hs2 : cb s2 = cb s /\ trace s2 = trace s
               /\ (o_path_to_stdin options = None -> o_feed_pipe options = false -> nst = true /\ fd = 0)
               /\ (o_path_to_stdin options = None -> o_feed_pipe options = true -> nst = false /\ fd = -1)
               /\ (forall p, o_path_to_stdin options = Some p -> nst = false /\ 3 <= fd)).
  { destruct (o_path_to_stdin options) as [p|].
    - unfold xopen in Hst. destruct (find _ (files r)); [|discriminate].
      rewrite bind_assoc, bind_get in Hst. cbv beta in Hst. unfold set_fds in Hst.
      rewrite bind_assoc, bind_modify in Hst. injection Hst as <- <- <-. cbn [cb trace].
      split; [reflexivity|]. split; [reflexivity|].
      split; [intros E; discriminate|]. split; [intros E; discriminate|].
      intros p' _. split; [reflexivity | idtac]. change (3 <= 3 + Z.of_nat (length (fds s))). lia.
    - destruct (o_feed_pipe options); injection Hst as <- <- <-;
        (split; [reflexivity|]); (split; [reflexivity|]);
        (split; [intros _ E; first [discriminate | split; reflexivity]|]);
        (split; [intros _ E; first [discriminate | split; reflexivity]|]);
        intros p' E; discriminate. }
  destruct Hs2 as (Hc2 & Ht2 & Hn1 & Hn2 & Hn3).
  apply bind_ok_inv in H. destruct H as (argv0 & s3 & Ha & H).
  rewrite bind_get in H. cbv beta in H. unfold set_cb in H. rewrite bind_modify in H.
  injection H as <- <- <-.
  (* the command *)
  assert (Hs3 : cb s3 = cb s2 /\ (exists msgs, trace s3 = trace s2 ++ map EvStderr msgs)
     /\ match name h with
        | Some n => command_of r n = Some argv0
        | None => argv0 = match o_dir options with
                          | Some _ => absolute_path r (hookdir_path r (hook_name (cb s)))
                          | None => hookdir_path r (hook_name (cb s))
                          end
        end).
  { destruct (name h) as [n|].
    - apply bind_ok_inv in Ha. destruct Ha as (c & s4 & Hg & Hc).
      destruct (get_string_frame r _ s2 s4 c Hg) as (Hc4 & msgs & Ht4).
      unfold command_of.
      destruct c as [c|]; [|discriminate]. injection Hc as <- <-.
      split; [exact Hc4 |]. split; [exists msgs; exact Ht4|].
      unfold repo_config_get_string in Hg. destruct (config_last r (hook_command_key n)) as [[x|]|].
      + injection Hg as -> _. reflexivity.
      + unfold bind, error, emit, modify in Hg. discriminate.
      + discriminate.
    - apply bind_ok_inv in Ha. destruct Ha as (hp & s4 & Hf & Hr).
      destruct (find_hook_result r (hook_name (cb s)) s2) as (s5 & Hf5 & Hq).
      rewrite Hf in Hf5. injection Hf5 as Hhp <-.
      destruct Hq as (_ & _ & _ & Hc5 & msgs & Ht5 & _).
      destruct hp as [p|]; [|discriminate]. injection Hr as <- <-.
      split; [exact Hc5|]. split; [exists msgs; exact Ht5|].
      destruct (hookdir_exec r (hook_name (cb s))); [|discriminate].
      injection Hhp as <-. reflexivity. }
  destruct Hs3 as (Hc3 & (msgs & Ht3) & Hcmd).
  exists h. rewrite Hc3, Hc2. split; [reflexivity|]. split; [exact Hn|]. split.
  - unfold hook_cp. cbn [cp_env cp_stdout_to_stderr cp_trace2_hook_name cp_dir cp_no_stdin cp_in
                          cp_use_shell cp_args].
    do 4 (split; [reflexivity|]).
    split; [intros A B; exact (proj1 (Hn1 A B))|].
    split; [intros A B; exact (Hn2 A B)|].
    split; [intros q Hq; exact (Hn3 q Hq)|].
    destruct (name h) as [n|].
    + split; [reflexivity|]. exists argv0. split; [exact Hcmd | reflexivity].
    + split; [reflexivity|]. rewrite Hcmd. reflexivity.
  - split; [reflexivity|]. exists msgs. rewrite Ht3, Ht2. reflexivity.
Qed.

Lemma quiet_step_refl s : quiet_step s s.
Proof. repeat split. exists []. rewrite app_nil_r. reflexivity. Qed.

Lemma quiet_step_trans s1 s2 s3 : quiet_step s1 s2 -> quiet_step s2 s3 -> quiet_step s1 s3.
Proof.
  intros (A1 & B1 & C1 & m1 & D1) (A2 & B2 & C2 & m2 & D2).
  repeat split; try congruence. exists (m1 ++ m2). rewrite D2, D1, map_app, app_assoc. reflexivity.
Qed.

Lemma map_name_replace (l : list hook) k h cur :
  nth_error l k = Some h ->
  map name (firstn k l ++ mk_hook (name h) cur :: skipn (S k) l) = map name l.
Proof.
  revert k. induction l as [|y l IH]; intros k Hk; [destruct k; discriminate|].
  destruct k as [|k]; cbn in *.
  - injection Hk as ->. reflexivity.
  - f_equal. apply IH. exact Hk.
Qed.

Lemma pipe_frame ctx task s s' res :
  pipe_from_string_list ctx task s = Ok res s' -> quiet_step s s'.
Proof.
  unfold pipe_from_string_list. rewrite bind_get. cbv beta.
  intros H. apply bind_ok_inv in H. destruct H as (h & s1 & Hh & H).
  unfold lift in Hh. destruct (nth_error (head (cb s)) task) as [h0|] eqn:Hn; [|discriminate].
  injection Hh as <- <-.
  apply bind_ok_inv in H. destruct H as (idx & s2 & Hi & H).
  assert (s2 = s) as ->.
  { destruct (feed_pipe_cb_data h0); unfold ret, undefined in Hi; try discriminate;
      injection Hi as _ <-; reflexivity. }
  destruct (nth_error ctx idx); unfold set_cb in H; rewrite bind_modify in H;
    unfold ret in H; injection H as _ <-; cbn;
    (split; [reflexivity|]); (split; [apply map_name_replace; exact Hn|]);
    (split; [reflexivity|]); exists []; rewrite app_nil_r; reflexivity.
Qed.

Lemma feed_task_frame fuel ctx task s s' d :
  feed_task fuel ctx task s = Ok d s' -> quiet_step s s'.
Proof.
  revert s d. induction fuel as [|f IH]; intros s d H; [discriminate|].
  cbn [feed_task] in H. apply bind_ok_inv in H. destruct H as ([code out] & s1 & Hp & H).
  apply pipe_frame in Hp. cbv beta iota in H.
  destruct (code =? 0).
  - apply bind_ok_inv in H. destruct H as (rest & s2 & Hf & H).
    unfold ret in H. injection H as _ <-. exact (quiet_step_trans _ _ _ Hp (IH _ _ Hf)).
  - unfold ret in H. injection H as _ <-. exact Hp.
Qed.

Lemma child_stdin_frame r options opts fuel cp task s s' d :
  child_stdin r options opts fuel cp task s = Ok d s' -> quiet_step s s'.
Proof.
  unfold child_stdin.
  destruct (cp_no_stdin cp).
  { unfold ret. intros H. injection H as _ <-. apply quiet_step_refl. }
  destruct (cp_in cp =? -1).
  - destruct (pp_feed_pipe opts).
    + intros H. apply bind_ok_inv in H. destruct H as (d0 & s1 & Hf & H).
      unfold ret in H. injection H as _ <-. exact (feed_task_frame _ _ _ _ _ _ Hf).
    + unfold ret. intros H. injection H as _ <-. apply quiet_step_refl.
  - rewrite bind_get. cbv beta. intros H.
    apply bind_ok_inv in H. destruct H as ([p off] & s1 & Hd & H).
    unfold lift in Hd. destruct (nth_error _ _); [|discriminate]. injection Hd as _ <-.
    cbv beta iota in H.
    apply bind_ok_inv in H. destruct H as (c & s2 & Hc & H).
    unfold lift in Hc. destruct (option_map _ _); [|discriminate]. injection Hc as _ <-.
    unfold set_fds in H. rewrite bind_modify in H. unfold ret in H. injection H as _ <-.
    repeat split. exists []. rewrite app_nil_r. reflexivity.
Qed.

Lemma notify_start_failure_frame out task s s' v :
  notify_start_failure out task s = Ok v s' -> quiet_step s s'.
Proof.
  unfold notify_start_failure. rewrite bind_get. cbv beta.
  unfold set_cb. rewrite bind_modify. intros H.
  apply bind_ok_inv in H. destruct H as (u & s1 & Ho & H).
  unfold ret in H. injection H as _ <-.
  destruct out.
  - apply bind_ok_inv in Ho. destruct Ho as (h & s2 & Hh & Ho).
    unfold lift in Hh. destruct (nth_error _ _) as [h0|]; [|discriminate]. injection Hh as <- <-.
    unfold emit, modify in Ho. injection Ho as _ <-. cbn.
    repeat split. exists [start_failure_msg h0]. reflexivity.
  - unfold ret in Ho. injection Ho as _ <-. cbn.
    repeat split. exists []. rewrite app_nil_r. reflexivity.
Qed.

Lemma notify_hook_finished_frame options st s s' v :
  notify_hook_finished options st s = Ok v s' -> quiet_step s s'.
Proof.
  destruct (notify_hook_finished_step options st s) as (s2 & E & Hc & _ & _ & Ht).
  rewrite E. intros H. injection H as _ Es. subst s'.
  unfold quiet_step. rewrite Hc, Ht. cbn.
  repeat split. exists []. rewrite app_nil_r. reflexivity.
Qed.

Lemma dispatched_app a b : dispatched (a ++ b) = dispatched a ++ dispatched b.
Proof. induction a as [|e a IH]; [reflexivity|]. destruct e; cbn; rewrite ?IH; reflexivity. Qed.

Lemma dispatched_stderr msgs : dispatched (map EvStderr msgs) = [].
Proof. induction msgs; cbn; auto. Qed.

Lemma pending_quiet s s' : quiet_step s s' -> pending (cb s') = pending (cb s).
Proof. intros (_ & B & C & _). unfold pending. rewrite C, B. reflexivity. Qed.

Lemma pending_after_pick c i h :
  run_me c = Some i -> nth_error (head c) i = Some h ->
  pending c = name h :: pending (mk_cb (rc c) (hook_name c) (head c)
                                  (if Nat.eqb (S i) (length (head c)) then None else Some (S i))).
Proof.
  intros Hr Hn. unfold pending. rewrite Hr. cbn [run_me head].
  rewrite (skipn_nth_cons (map name (head c)) i (name h)) by (rewrite nth_error_map, Hn; reflexivity).
  f_equal. destruct (Nat.eqb_spec (S i) (length (head c))) as [E|E]; [|reflexivity].
  apply skipn_all2. rewrite length_map. lia.
Qed.

Lemma pp_loop_dispatch run_child r options opts ff fuel s s' :
  pp_loop run_child r options opts ff fuel s = Ok tt s' ->
  exists new, trace s' = trace s ++ new
    /\ Forall2 (hook_cp r options (hook_name (cb s))) (pending (cb s)) (dispatched new).
Proof.
  revert s. induction fuel as [|f IH]; intros s H; [discriminate|].
  cbn [pp_loop] in H. apply bind_ok_inv in H. destruct H as (t & s1 & Hp & H).
  destruct t as [[cp i]|].
  2:{ apply pick_none in Hp. destruct Hp as [Hr ->]. unfold ret in H. injection H as <-.
      exists []. rewrite app_nil_r. unfold pending. rewrite Hr. split; [reflexivity|constructor]. }
  apply pick_cp in Hp. destruct Hp as (h & Hr & Hn & Hcp & Hc1 & m1 & Ht1).
  assert (Hq1 : hook_name (cb s1) = hook_name (cb s)
                /\ pending (cb s1) = pending (mk_cb (rc (cb s)) (hook_name (cb s)) (head (cb s))
                     (if Nat.eqb (S i) (length (head (cb s))) then None else Some (S i))))
    by (rewrite Hc1; split; reflexivity).
  rewrite (pending_after_pick _ _ _ Hr Hn). destruct Hq1 as [Hq1 Hq2]. rewrite <- Hq2.
  destruct (run_child cp) as [st|].
  - apply bind_ok_inv in H. destruct H as (d & s2 & Hd & H).
    apply child_stdin_frame in Hd.
    rewrite bind_emit in H.
    apply bind_ok_inv in H. destruct H as (v & s3 & Hf & H).
    apply notify_hook_finished_frame in Hf.
    apply IH in H. destruct H as (new & Ht & Hall).
    pose proof (pending_quiet _ _ Hd) as P2. pose proof (pending_quiet _ _ Hf) as P3.
    destruct Hd as (A2 & _ & _ & m2 & T2). destruct Hf as (A3 & _ & _ & m3 & T3).
    cbn [cb trace hook_name] in *.
    exists (map EvStderr m1 ++ map EvStderr m2 ++ [EvTask cp d st] ++ map EvStderr m3 ++ new).
    split.
    + rewrite Ht, T3, T2, Ht1. rewrite !app_assoc. reflexivity.
    + rewrite !dispatched_app, !dispatched_stderr. cbn.
      constructor; [exact Hcp|]. rewrite <- P2, <- P3. rewrite A3, A2, Hq1 in Hall. exact Hall.
  - rewrite bind_emit in H.
    apply bind_ok_inv in H. destruct H as (v & s3 & Hf & H).
    apply notify_start_failure_frame in Hf.
    apply IH in H. destruct H as (new & Ht & Hall).
    pose proof (pending_quiet _ _ Hf) as P3.
    destruct Hf as (A3 & _ & _ & m3 & T3).
    cbn [cb trace hook_name] in *.
    exists (map EvStderr m1 ++ [EvStartFailed cp] ++ map EvStderr m3 ++ new).
    split.
    + rewrite Ht, T3, Ht1. rewrite !app_assoc. reflexivity.
    + rewrite !dispatched_app, !dispatched_stderr. cbn.
      constructor; [exact Hcp|]. rewrite <- P3. rewrite A3, Hq1 in Hall. exact Hall.
Qed.

Lemma jobs_frame r options s j s' :
  (if o_jobs options =? 0 then configured_hook_jobs r else ret (o_jobs options)) s = Ok j s' ->
  cb s' = cb s /\ trace s' = trace s.
Proof.
  pose proof (jobs_step r options s) as Hj.
  destruct (resolved_jobs r options (jobs_cache s)).
  - destruct Hj as (s2 & E & Hc & Ht & _). rewrite E. intros H. injection H as _ <-. auto.
  - destruct Hj as (msg & s2 & E). rewrite E. discriminate.
Qed.

Theorem run_hooks_opt_dispatch run_child r ev options s v s' :
  run_hooks_opt_fn run_child r ev options s = Ok v s' ->
  exists new, trace s' = trace s ++ new
    /\ Forall2 (hook_cp r options ev) (hook_names r ev) (dispatched new).
Proof.
  destruct (list_hooks_names r ev s) as (l & s1 & Hl & Hq & Hm & _).
  fold (hook_names r ev) in Hm.
  unfold run_hooks_opt_fn. intros H.
  rewrite (bind_ok _ _ _ _ _ Hl) in H. unfold set_cb in H. rewrite bind_modify in H.
  destruct Hq as (_ & _ & _ & _ & m1 & T1 & _).
  apply bind_ok_inv in H. destruct H as (u & s2 & Hi & H).
  assert (Hs2 : cb s2 = mk_cb 0 ev l (Some 0%nat) /\ trace s2 = trace s1).
  { destruct (o_invoked_hook_ptr options); unfold set_invoked, modify, ret in Hi;
      injection Hi as _ <-; split; reflexivity. }
  destruct Hs2 as [C2 T2].
  assert (Hbody : forall s2 v s',
            cb s2 = mk_cb 0 ev l (Some 0%nat) -> trace s2 = trace s1 ->
            (if is_empty l && negb (o_error_if_missing options) then ret 0
             else if is_empty l then error ("cannot find a hook named " ++ ev)%string
             else
               jobs <- (if o_jobs options =? 0 then configured_hook_jobs r else ret (o_jobs options)) ;;
               let ungroup := (jobs =? 1) || Nat.eqb 1 (length l) in
               let opts' := mk_pp ev 1 ungroup (o_feed_pipe options) (o_consume_sideband options) in
               run_processes_parallel run_child r options opts'
                 (S (length l + length (o_feed_pipe_ctx options))) ;;;
               s <- get ;; ret (rc (cb s))) s2 = Ok v s' ->
            exists new, trace s' = trace s ++ new
              /\ Forall2 (hook_cp r options ev) (hook_names r ev) (dispatched new)).
  { clear u Hi H C2 T2 s2 v s'. intros s2 v s' C2 T2 H.
    destruct l as [|h0 l0].
    - rewrite <- Hm. cbn [is_empty andb map] in *.
      destruct (o_error_if_missing options); cbn [negb] in H.
      + unfold error in H. rewrite bind_emit in H. unfold ret in H. injection H as _ <-.
        exists (map EvStderr (m1 ++ [("error: " ++ "cannot find a hook named " ++ ev)%string])).
        cbn [trace]. rewrite T2, T1, map_app, app_assoc.
        split; [reflexivity|]. rewrite ?dispatched_app, !dispatched_stderr. constructor.
      + unfold ret in H. injection H as _ <-.
        exists (map EvStderr m1). rewrite T2, T1. split; [reflexivity|].
        rewrite dispatched_stderr. constructor.
    - cbn [is_empty andb] in H.
      apply bind_ok_inv in H. destruct H as (j & s3 & Hj & H).
      apply jobs_frame in Hj. destruct Hj as [C3 T3].
      unfold run_processes_parallel in H. rewrite bind_assoc, bind_emit in H.
      apply bind_ok_inv in H. destruct H as (u2 & s4 & Hp & H).
      rewrite bind_get in H. unfold ret in H. injection H as _ <-.
      destruct u2. apply pp_loop_dispatch in Hp. destruct Hp as (new & T4 & Hall).
      cbn [cb trace] in T4, Hall. rewrite C3, C2 in Hall. cbn [pending run_me head skipn] in Hall.
      rewrite Hm in Hall.
      eexists. rewrite T4, T3, T2, T1, <- !app_assoc. split; [reflexivity|].
      rewrite dispatched_app, dispatched_stderr. cbn [dispatched app]. exact Hall. }
  destruct (o_path_to_stdin options) as [p|], (o_feed_pipe options);
    try discriminate H; exact (Hbody s2 v s' C2 T2 H).
Qed.

Lemma keep_last_nil_inv l : keep_last l = [] -> l = [].
Proof.
  induction l as [|x xs IH]; [reflexivity|]. cbn.
  destruct (existsb (String.eqb x) xs) eqn:E; [|discriminate].
  intros H. apply IH in H. subst xs. discriminate.
Qed.

Lemma hook_names_nil r ev :
  hook_names r ev = [] -> event_decls ev (config r) = [] /\ hookdir_exec r ev = false.
Proof.
  unfold hook_names. intros H. apply app_eq_nil in H. destruct H as [H1 H2].
  apply map_eq_nil, keep_last_nil_inv in H1. split; [exact H1|].
  destruct (hookdir_exec r ev); [discriminate|reflexivity].
Qed.

(** A run never gets past the stdin check with both sources. *)
Lemma run_hooks_opt_both_stdin run_child r ev options s p :
  o_path_to_stdin options = Some p -> o_feed_pipe options = true ->
  run_hooks_opt_fn run_child r ev options s = Bugged "choose only one method to populate stdin".
Proof.
  intros Hp Hf.
  destruct (list_hooks_names r ev s) as (l & s1 & Hl & _).
  unfold run_hooks_opt_fn. rewrite (bind_ok _ _ _ _ _ Hl). unfold set_cb. rewrite bind_modify.
  destruct (o_invoked_hook_ptr options); unfold set_invoked; rewrite ?bind_modify, ?bind_ret;
    rewrite Hp, Hf; reflexivity.
Qed.

Lemma find_hook_again r nm s p s1 :
  find_hook r nm s = Ok p s1 ->
  p = (if hookdir_exec r nm then Some (hookdir_path r nm) else None)
  /\ find_hook r nm s1 = Ok p s1.
Proof.
  unfold find_hook, hookdir_exec.
  destruct (find _ (hookdir r)) as [[x b]|]; [destruct b|].
  - unfold ret. intros H. injection H as <- <-. split; reflexivity.
  - destruct (advice_ignored_hook r); [|unfold ret; intros H; injection H as <- <-; split; reflexivity].
    rewrite bind_get. destruct (existsb (String.eqb nm) (advise_given s)) eqn:E.
    + unfold ret. intros H. injection H as <- <-. rewrite bind_get, E. split; reflexivity.
    + unfold set_advise_given. rewrite bind_modify, bind_emit. unfold ret. intros H.
      injection H as <- <-. split; [reflexivity|]. rewrite bind_get. cbn [advise_given existsb].
      rewrite String.eqb_refl. reflexivity.
  - unfold ret. intros H. injection H as <- <-. split; reflexivity.
Qed.

Lemma configured_hook_jobs_cached r s j s1 :
  configured_hook_jobs r s = Ok j s1 -> j <> 0 ->
  forall r', configured_hook_jobs r' s1 = Ok j s1.
Proof.
  unfold configured_hook_jobs. rewrite bind_get.
  destruct (negb (jobs_cache s =? 0)) eqn:E.
  - unfold ret. intros H. injection H as <- <-. intros _ r'. rewrite bind_get, E. reflexivity.
  - intros H Hj r'. apply bind_ok_inv in H. destruct H as (v & s2 & _ & H).
    unfold set_jobs_cache in H. rewrite bind_modify in H. unfold ret in H.
    injection H as <- <-. rewrite bind_get. cbn [jobs_cache].
    destruct (Z.eqb_spec (match v with Some j => j | None => online_cpus_count r end) 0) as [E0|E0];
      [contradiction|reflexivity].
Qed.




Lemma pipe_after_end ctx task s d s1 :
  pipe_from_string_list ctx task s = Ok (1, d) s1 ->
  pipe_from_string_list ctx task s1 = Undefined.
Proof.
  unfold pipe_from_string_list. rewrite bind_get. cbv beta.
  intros H. apply bind_ok_inv in H. destruct H as (h & s2 & Hh & H).
  unfold lift in Hh. destruct (nth_error (head (cb s)) task) as [h0|] eqn:Hn; [|discriminate].
  injection Hh as <- <-.
  apply bind_ok_inv in H. destruct H as (idx & s3 & Hi & H).
  assert (s3 = s) as -> by
    (destruct (feed_pipe_cb_data h0); unfold ret, undefined in Hi; try discriminate;
     injection Hi as _ <-; reflexivity).
  assert (Ht : (task < length (head (cb s)))%nat)
    by (apply nth_error_Some; rewrite Hn; discriminate).
  destruct (nth_error ctx idx); unfold set_cb in H; rewrite bind_modify in H;
    unfold ret in H; injection H as E <-; [discriminate|].
  rewrite bind_get. cbv beta. cbn [cb head].
  unfold lift. rewrite nth_error_app2 by (rewrite length_firstn; lia).
  rewrite length_firstn, Nat.min_l by lia. rewrite Nat.sub_diag. reflexivity.
Qed.


Lemma hook_exists_result r ev s :
  exists s', hook_exists r ev s = Ok (if is_empty (hook_names r ev) then 0 else 1) s'
    /\ quiet is_advice s s'.
Proof.
  destruct (list_hooks_names r ev s) as (l & s1 & Hl & Hq & Hm & _).
  fold (hook_names r ev) in Hm. exists s1. unfold hook_exists.
  rewrite (bind_ok _ _ _ _ _ Hl). rewrite <- Hm. destruct l; split; auto.
Qed.

Lemma run_hooks_l_children run_child r ev va s v s' :
  run_hooks_l run_child r ev va s = Ok v s' ->
  exists new, trace s' = trace s ++ new
    /\ Forall2 (fun _ cp => tl (cp_args cp) = va /\ cp_no_stdin cp = true
                            /\ cp_env cp = [] /\ cp_dir cp = None)
               (hook_names r ev) (dispatched new).
Proof.
  unfold run_hooks_l. intros H. apply run_hooks_opt_dispatch in H.
  destruct H as (new & Ht & Hall). exists new. split; [exact Ht|].
  refine (Forall2_impl _ _ Hall). intros nm cp Hcp.
  destruct Hcp as (Henv & _ & _ & Hdir & Hns & _ & _ & Ha). cbn in *.
  split; [|split; [apply Hns; reflexivity|split; assumption]].
  destruct nm as [n|]; destruct Ha as [_ Ha].
  - destruct Ha as (c & _ & ->). reflexivity.
  - rewrite Ha. reflexivity.
Qed.

Lemma run_hooks_l_none run_child r ev va s :
  hook_names r ev = [] ->
  exists msgs s', run_hooks_l run_child r ev va s = Ok 0 s'
    /\ trace s' = trace s ++ map EvStderr msgs /\ Forall is_advice msgs.
Proof.
  intros H. apply hook_names_nil in H. destruct H as [H1 H2].
  destruct (run_hooks_opt_empty run_child r ev
              (mk_opt [] ([] ++ va) false None false [] false 0 None false) s
              (or_introl eq_refl) H1 H2) as (msgs & s' & E & Ht & Ha).
  exists msgs, s'. cbn in E, Ht. rewrite app_nil_r in Ht. auto.
Qed.

Lemma cmd_hook_run_no_hooks run_child r ev ignore_missing opt s :
  hook_names r ev = [] ->
  (o_path_to_stdin opt = None \/ o_feed_pipe opt = false) ->
  exists msgs s', cmd_hook_run run_child r ev ignore_missing opt s
      = Ok (if negb ignore_missing || o_error_if_missing opt then 1 else 0) s'
    /\ trace s' = trace s ++ map EvStderr msgs
         ++ (if negb ignore_missing || o_error_if_missing opt then [EvStderr (cannot_find_msg ev)] else [])
    /\ Forall is_advice msgs.
Proof.
  intros H Hs. apply hook_names_nil in H. destruct H as [H1 H2].
  unfold cmd_hook_run.
  match goal with |- context [run_hooks_opt_fn run_child r ev ?o] =>
    destruct (run_hooks_opt_empty run_child r ev o s Hs H1 H2) as (msgs & s' & E & Ht & Ha) end.
  exists msgs, s'. rewrite (bind_ok _ _ _ _ _ E). cbn [o_error_if_missing] in *.
  destruct ignore_missing, (o_error_if_missing opt); cbn in *; auto.
Qed.

Lemma run_argv_usage run_child r argv ignore_missing opt s :
  (argv = [] \/ exists nm a rest, argv = nm :: a :: rest
                                  /\ a <> "--"%string /\ a <> "--end-of-options"%string) ->
  run_argv run_child r argv ignore_missing opt s = Died builtin_hook_run_usage s.
Proof.
  intros [->|(nm & a & rest & -> & H1 & H2)]; [reflexivity|].
  unfold run_argv.
  destruct (String.eqb_spec a "--"); [contradiction|].
  destruct (String.eqb_spec a "--end-of-options"); [contradiction|]. reflexivity.
Qed.

Lemma run_argv_hook_args run_child r nm sep args ignore_missing opt s v s' :
  (sep = "--"%string \/ sep = "--end-of-options"%string) ->
  run_argv run_child r (nm :: sep :: args) ignore_missing opt s = Ok v s' ->
  exists new, trace s' = trace s ++ new
    /\ Forall2 (fun _ cp => tl (cp_args cp) = o_args opt ++ args)
               (hook_names r nm) (dispatched new).
Proof.
  intros Hsep. unfold run_argv.
  assert (Hc : negb (String.eqb sep "--") && negb (String.eqb sep "--end-of-options") = false)
    by (destruct Hsep as [->| ->]; reflexivity).
  rewrite Hc. unfold cmd_hook_run. intros H.
  apply bind_ok_inv in H. destruct H as (rv & s1 & Hr & H).
  assert (s1 = s') as <- by (destruct (rv <? 0); unfold ret in H; injection H as _ E; exact E).
  apply run_hooks_opt_dispatch in Hr. destruct Hr as (new & Ht & Hall).
  exists new. split; [exact Ht|].
  refine (Forall2_impl _ _ Hall). intros nm' cp Hcp.
  destruct Hcp as (_ & _ & _ & _ & _ & _ & _ & Ha). cbn in Ha.
  destruct nm' as [n|]; destruct Ha as [_ Ha].
  - destruct Ha as (c & _ & ->). reflexivity.
  - rewrite Ha. reflexivity.
Qed.

Lemma pick_missing_file r options s i h p :
  run_me (cb s) = Some i -> nth_error (head (cb s)) i = Some h ->
  o_path_to_stdin options = Some p -> file_contents r p = None ->
  pick_next_hook r options s = Died ("could not open '" ++ p ++ "' for reading")%string s.
Proof.
  intros Hr Hn Hp Hfc. unfold pick_next_hook. rewrite bind_get. cbv beta. rewrite Hr.
  rewrite (bind_lift_some _ h) by exact Hn. rewrite Hp.
  unfold xopen. unfold file_contents in Hfc.
  destruct (find (fun q => String.eqb (fst q) p) (files r)); [discriminate|]. reflexivity.
Qed.

Lemma run_missing_stdin_file run_child r ev options s p :
  o_path_to_stdin options = Some p -> o_feed_pipe options = false ->
  file_contents r p = None -> hook_names r ev <> [] ->
  resolved_jobs r options (jobs_cache s) <> None ->
  exists s', run_hooks_opt_fn run_child r ev options s
             = Died ("could not open '" ++ p ++ "' for reading")%string s'
    /\ dispatched (trace s') = dispatched (trace s).
Proof.
  intros Hp Hf Hfc Hne Hj.
  destruct (list_hooks_names r ev s) as (l & s1 & Hl & Hq & Hm & _).
  fold (hook_names r ev) in Hm.
  destruct l as [|h l]; [rewrite <- Hm in Hne; contradiction|].
  destruct Hq as (Hj1 & _ & _ & _ & m1 & T1 & _).
  unfold run_hooks_opt_fn. rewrite (bind_ok _ _ _ _ _ Hl). unfold set_cb. rewrite bind_modify.
  set (s2 := mk_state _ _ _ _ _ _).
  assert (Hinv : exists s3, (if o_invoked_hook_ptr options then set_invoked false else ret tt) s2
                            = Ok tt s3 /\ cb s3 = cb s2 /\ trace s3 = trace s2
                            /\ jobs_cache s3 = jobs_cache s2).
  { destruct (o_invoked_hook_ptr options); eexists; repeat split; reflexivity. }
  destruct Hinv as (s3 & E3 & C3 & T3 & J3).
  rewrite (bind_ok _ _ _ _ _ E3), Hp, Hf. cbn [is_empty andb].
  pose proof (jobs_step r options s3) as Hjs.
  rewrite J3 in Hjs. cbn [s2 jobs_cache] in Hjs. rewrite Hj1 in Hjs.
  destruct (resolved_jobs r options (jobs_cache s)) as [j|]; [|contradiction].
  destruct Hjs as (s4 & E4 & C4 & T4 & _).
  rewrite (bind_ok _ _ _ _ _ E4). cbv beta.
  unfold run_processes_parallel. rewrite !bind_assoc, bind_emit.
  eexists. split.
  - apply bind_died. cbn [pp_loop]. apply bind_died.
    apply (pick_missing_file r options _ 0 h p); cbn [cb]; rewrite ?C4, ?C3; try reflexivity;
      assumption.
  - cbn [trace]. rewrite T4, T3. cbn [s2 trace]. rewrite T1.
    rewrite !dispatched_app, dispatched_stderr. cbn. rewrite !app_nil_r. reflexivity.
Qed.

(** ** The claims *)

(** C1: every run over a non-empty hook list hands the executor
    [processes = 1], whatever job count it resolved. *)
Theorem C1_processes_stays_one run_child r ev options s v s' :
  (o_path_to_stdin options = None \/ o_feed_pipe options = false) ->
  (0 < length (hook_names r ev))%nat ->
  run_hooks_opt_fn run_child r ev options s = Ok v s' ->
  exists jobs msgs pp new, resolved_jobs r options (jobs_cache s) = Some jobs
    /\ trace s' = trace s ++ map EvStderr msgs ++ EvRunParallel pp :: new
    /\ pp_processes pp = 1 /\ Forall not_run_parallel new.
Proof.
  intros Hone Hlen Hrun.
  destruct (run_ok_facts run_child r ev options s v s' Hone Hlen Hrun)
    as (jobs & msgs & new & Hres & _ & Htr & _ & _ & _ & Hfb & _).
  eexists jobs, msgs, _, new. split; [exact Hres|]. split; [exact Htr|]. split; [reflexivity | exact Hfb].
Qed.

Lemma C1_witness :
  let s' := final_state (run_hooks_opt_fn (fun _ => Some 0) example_repo "pre-commit" jobs4_opt init_state) in
  run_hooks_opt_fn (fun _ => Some 0) example_repo "pre-commit" jobs4_opt init_state = Ok 0 s'
    /\ exists jobs msgs pp new, resolved_jobs example_repo jobs4_opt (jobs_cache init_state) = Some jobs
    /\ trace s' = trace init_state ++ map EvStderr msgs ++ EvRunParallel pp :: new
    /\ pp_processes pp = 1 /\ Forall not_run_parallel new.
Proof.
  intros s'. split; [vm_compute; reflexivity|].
  apply (C1_processes_stays_one (fun _ => Some 0) example_repo "pre-commit" jobs4_opt init_state 0 s').
  - left; reflexivity.
  - vm_compute; lia.
  - vm_compute; reflexivity.
Defined.

(** C2 (as the code has it): with the feeder as stdin source, every task
    that runs is fed the whole line list from its first line: each task's
    cursor starts at 0 and only its own feed calls advance it. *)
Theorem C2_each_task_fed_whole_list run_child r ev options s v s' :
  o_path_to_stdin options = None -> o_feed_pipe options = true ->
  (0 < length (hook_names r ev))%nat ->
  run_hooks_opt_fn run_child r ev options s = Ok v s' ->
  exists msgs pp new, trace s' = trace s ++ map EvStderr msgs ++ EvRunParallel pp :: new
    /\ Forall (fun d => d = Some (lines (o_feed_pipe_ctx options))) (task_inputs new)
    /\ ((forall cp, run_child cp <> None) -> length (task_inputs new) = length (hook_names r ev)).
Proof.
  intros Hp Hf Hlen Hrun.
  destruct (run_ok_facts run_child r ev options s v s' (or_introl Hp) Hlen Hrun)
    as (jobs & msgs & new & _ & _ & Htr & Hst & _ & Hfa & _ & Hfc & _).
  eexists msgs, _, new. split; [exact Htr|]. split.
  - apply (task_inputs_ok _ r options); [|exact Hfa].
    intros d Hd. unfold stdin_ok in Hd. rewrite Hp, Hf in Hd. exact Hd.
  - intros Hall. rewrite (task_inputs_count run_child new Hall Hfc). exact Hst.
Qed.

Lemma C2_witness :
  let s' := final_state (run_hooks_opt_fn (fun _ => Some 0) two_repo "post-receive"
                           (feed_opt ["x"; "y"]%string) init_state) in
  exists msgs pp new, trace s' = trace init_state ++ map EvStderr msgs ++ EvRunParallel pp :: new
    /\ Forall (fun d => d = Some (lines ["x"; "y"]%string)) (task_inputs new)
    /\ ((forall cp, (fun _ : child_process => Some 0) cp <> None) ->
        length (task_inputs new) = length (hook_names two_repo "post-receive")).
Proof.
  intros s'.
  apply (C2_each_task_fed_whole_list (fun _ => Some 0) two_repo "post-receive"
           (feed_opt ["x"; "y"]%string) init_state 0 s').
  - reflexivity.
  - reflexivity.
  - vm_compute; lia.
  - vm_compute; reflexivity.
Defined.

(** Feeding the two lines "x" and "y" to two hooks under one job: each
    hook reads both lines, four lines in all rather than two. *)
Lemma C2_counterexample :
  let s' := final_state (run_hooks_opt_fn (fun _ => Some 0) two_repo "post-receive"
                           (feed_opt ["x"; "y"]%string) init_state) in
  run_hooks_opt_fn (fun _ => Some 0) two_repo "post-receive" (feed_opt ["x"; "y"]%string) init_state
    = Ok 0 s'
  /\ task_inputs (trace s') = [Some (lines ["x"; "y"]%string); Some (lines ["x"; "y"]%string)].
Proof. intros s'. split; vm_compute; reflexivity. Qed.

(** C3: a discovered named hook whose [hook.<name>.command] is absent makes
    the whole run die. *)
Theorem C3_missing_command_dies run_child r ev options s n :
  (o_path_to_stdin options = None \/ o_feed_pipe options = false) ->
  existsb (String.eqb n) (keep_last (event_decls ev r.(config))) = true ->
  command_of r n = None ->
  exists msg s', run_hooks_opt_fn run_child r ev options s = Died msg s'.
Proof.
  intros Hone Hin Hc. apply existsb_eqb_In in Hin.
  assert (Hin' : In (Some n) (hook_names r ev)) by (apply in_or_app; left; apply in_map; exact Hin).
  assert (Hne : hook_names r ev <> []) by (intros E; rewrite E in Hin'; destruct Hin').
  destruct (run_hooks_opt_run run_child r ev options s Hone Hne) as
    (l & s1 & _ & Hm & [(msg & s2 & Hd & _) | (jobs & new & s2 & _ & _ & Hall & _)]).
  - exists msg, s2. exact Hd.
  - exfalso. rewrite <- Hm in Hin'. apply in_map_iff in Hin'. destruct Hin' as (h & Hh & Hin').
    apply In_nth_error in Hin'. destruct Hin' as (j & Hj).
    apply (Hall j h Hj). left. exists n. split; assumption.
Qed.

Lemma C3_witness :
  exists msg s', run_hooks_opt_fn (fun _ => Some 0) nocmd_repo "pre-commit" plain_opt init_state
                 = Died msg s'.
Proof.
  apply (C3_missing_command_dies (fun _ => Some 0) nocmd_repo "pre-commit" plain_opt init_state "a").
  - left; reflexivity.
  - vm_compute; reflexivity.
  - vm_compute; reflexivity.
Defined.

(** C4 (as the code has it): discovery registers the configured names and
    then, at most once, the anonymous hook; for such sequences the names
    are unique, a re-registered name moves to the tail, and each name sits
    where its last declaration was. *)
Theorem C4_discovery_registrations (ns : list string) (anon : bool) :
  (exists l, register_all [] (map Some ns ++ (if anon then [None] else [])) = Some l
     /\ map name l = map Some (keep_last ns) ++ (if anon then [None] else [])
     /\ NoDup (keep_last ns))
  /\ (forall L l n, map name l = map Some L -> NoDup L ->
        exists l', append_or_move_hook l (Some n) = Some l'
                   /\ map name l' = map Some (remove String.string_dec n L ++ [n])).
Proof.
  split; [|exact append_named].
  destruct (register_all_named ns [] [] eq_refl (NoDup_nil _)) as (l & Hr & Hm & Hnd).
  cbn [filter app] in Hm, Hnd.
  rewrite register_all_app, Hr. destruct anon.
  - exists (l ++ [mk_hook None NoCursor]). cbn. rewrite map_app, Hm. auto.
  - exists l. cbn. rewrite !app_nil_r. auto.
Qed.

(** An anonymous registration before a named one: [find_hook_by_name]
    compares the name with the anonymous hook's NULL name. *)
Lemma C4_counterexample : register_all [] [None; Some "a"%string] = None.
Proof. reflexivity. Qed.

(** C5: with no hook to run, the run returns 0, or -1 after exactly one
    "cannot find a hook named" error when [error_if_missing] is set; the
    executor is never called. *)
Theorem C5_no_hooks run_child r ev options s :
  (o_path_to_stdin options = None \/ o_feed_pipe options = false) ->
  length (hook_names r ev) = 0%nat ->
  exists msgs s',
    run_hooks_opt_fn run_child r ev options s
      = Ok (if o_error_if_missing options then -1 else 0) s'
    /\ trace s' = trace s ++ map EvStderr msgs
                  ++ (if o_error_if_missing options then [EvStderr (cannot_find_msg ev)] else [])
    /\ Forall (fun m => m <> cannot_find_msg ev) msgs.
Proof.
  intros Hone Hlen. apply length_zero_iff_nil in Hlen. unfold hook_names in Hlen.
  apply app_eq_nil in Hlen. destruct Hlen as (Hk & Hd).
  apply map_eq_nil, keep_last_nil in Hk.
  assert (Hd' : hookdir_exec r ev = false) by (destruct (hookdir_exec r ev); [discriminate | reflexivity]).
  destruct (run_hooks_opt_empty run_child r ev options s Hone Hk Hd') as (msgs & s' & Hrun & Htr & Hadv).
  exists msgs, s'. split; [exact Hrun|]. split; [exact Htr|].
  eapply Forall_impl; [|exact Hadv]. intros m Hm. apply advice_not_cannot_find. exact Hm.
Qed.

Lemma C5_witness :
  exists msgs s',
    run_hooks_opt_fn (fun _ => Some 0) two_repo "pre-push" missing_opt init_state = Ok (-1) s'
    /\ trace s' = trace init_state ++ map EvStderr msgs ++ [EvStderr (cannot_find_msg "pre-push")]
    /\ Forall (fun m => m <> cannot_find_msg "pre-push") msgs.
Proof.
  apply (C5_no_hooks (fun _ => Some 0) two_repo "pre-push" missing_opt init_state).
  - left; reflexivity.
  - vm_compute; reflexivity.
Defined.

(** C6 (as the code has it): [run_hooks_opt] itself passes error()'s -1
    on; the [git hook run] command turns a negative result into 1, so the
    exit code it returns is never negative. *)
Theorem C6_hook_run_nonnegative run_child r ev ignore_missing opt s v s' :
  cmd_hook_run run_child r ev ignore_missing opt s = Ok v s' -> 0 <= v.
Proof.
  unfold cmd_hook_run, bind.
  destruct (run_hooks_opt_fn _ _ _ _ s) as [v0 s0| | |]; try discriminate.
  destruct (Z.ltb_spec v0 0) as [Hneg|Hpos]; cbn; intros Hr; injection Hr as <- _; lia.
Qed.

Lemma C6_witness :
  let s' := final_state (cmd_hook_run (fun _ => Some 0) two_repo "pre-push" false plain_opt init_state) in
  cmd_hook_run (fun _ => Some 0) two_repo "pre-push" false plain_opt init_state = Ok 1 s' /\ 0 <= 1.
Proof.
  intros s'. split; [vm_compute; reflexivity|].
  apply (C6_hook_run_nonnegative (fun _ => Some 0) two_repo "pre-push" false plain_opt init_state 1 s').
  vm_compute; reflexivity.
Defined.

(** [run_hooks_opt] on an event with no hook and [error_if_missing] set
    returns -1. *)
Lemma C6_counterexample :
  let s' := final_state (run_hooks_opt_fn (fun _ => Some 0) two_repo "pre-push" missing_opt init_state) in
  run_hooks_opt_fn (fun _ => Some 0) two_repo "pre-push" missing_opt init_state = Ok (-1) s'.
Proof. intros s'. vm_compute. reflexivity. Qed.

Lemma none_position (L : list string) (t : list (option string)) (j : nat) :
  (length t <= 1)%nat -> nth_error (map Some L ++ t) j = Some None ->
  S j = length (map Some L ++ t).
Proof.
  intros Ht Hj. rewrite length_app, length_map.
  destruct (Nat.lt_ge_cases j (length L)) as [Hlt|Hge].
  - rewrite nth_error_app1 in Hj by (rewrite length_map; exact Hlt).
    rewrite nth_error_map in Hj. destruct (nth_error L j); discriminate.
  - rewrite nth_error_app2 in Hj by (rewrite length_map; exact Hge).
    rewrite length_map in Hj.
    destruct t as [|x [|y t]]; cbn in Ht; [| |lia].
    + destruct (j - length L)%nat; discriminate.
    + destruct (j - length L)%nat eqn:E; [cbn; lia|]. destruct n; discriminate.
Qed.

(** C7: discovery puts the hook of the hooks directory after every
    configured hook, and there is at most one such anonymous hook. *)
Theorem C7_anonymous_last (r : repository) (ev : string) (s : state) :
  exists l s', list_hooks r ev s = Ok l s'
    /\ map name l = map Some (keep_last (event_decls ev r.(config)))
                    ++ (if hookdir_exec r ev then [None] else [])
    /\ (forall j h, nth_error l j = Some h -> name h = None -> S j = length l)
    /\ (forall j k hj hk, nth_error l j = Some hj -> nth_error l k = Some hk ->
          name hj = None -> name hk = None -> j = k).
Proof.
  destruct (list_hooks_names r ev s) as (l & s' & Hl & _ & Hm & _).
  assert (Hpos : forall j h, nth_error l j = Some h -> name h = None -> S j = length l).
  { intros j h Hj Hn. rewrite <- (length_map name l), Hm.
    apply none_position; [destruct (hookdir_exec r ev); cbn; lia|].
    rewrite <- Hm, nth_error_map, Hj. cbn. rewrite Hn. reflexivity. }
  exists l, s'. split; [exact Hl|]. split; [exact Hm|]. split; [exact Hpos|].
  intros j k hj hk Hj Hk Hnj Hnk.
  pose proof (Hpos j hj Hj Hnj). pose proof (Hpos k hk Hk Hnk). lia.
Qed.

(** C8 (executor modelled from the spec): the result is the OR of the
    tasks' statuses, a start failure counting as 1; every hook is
    dispatched, start failures included; reordering the statuses leaves
    the OR unchanged; with the flag pointer set, the flag records whether a
    task ran. *)
Theorem C8_aggregate_or run_child r ev options s v s' :
  (o_path_to_stdin options = None \/ o_feed_pipe options = false) ->
  (0 < length (hook_names r ev))%nat ->
  run_hooks_opt_fn run_child r ev options s = Ok v s' ->
  exists msgs pp new, trace s' = trace s ++ map EvStderr msgs ++ EvRunParallel pp :: new
    /\ v = or_all (statuses new)
    /\ length (statuses new) = length (hook_names r ev)
    /\ (forall sts, Permutation (statuses new) sts -> or_all sts = v)
    /\ (o_invoked_hook_ptr options = true -> invoked_hook s' = existsb is_task new).
Proof.
  intros Hone Hlen Hrun.
  destruct (run_ok_facts run_child r ev options s v s' Hone Hlen Hrun)
    as (jobs & msgs & new & _ & Hv & Htr & Hst & Hinv & _).
  eexists msgs, _, new. split; [exact Htr|]. split; [exact Hv|]. split; [exact Hst|]. split.
  - intros sts Hp. rewrite Hv. symmetry. apply or_all_perm. exact Hp.
  - intros Hptr. rewrite Hinv, Hptr. reflexivity.
Qed.

Lemma C8_witness :
  let s' := final_state (run_hooks_opt_fn mixed_child mixed_repo "post-receive" plain_opt init_state) in
  exists msgs pp new, trace s' = trace init_state ++ map EvStderr msgs ++ EvRunParallel pp :: new
    /\ 3 = or_all (statuses new)
    /\ length (statuses new) = length (hook_names mixed_repo "post-receive")
    /\ (forall sts, Permutation (statuses new) sts -> or_all sts = 3)
    /\ (o_invoked_hook_ptr plain_opt = true -> invoked_hook s' = existsb is_task new).
Proof.
  intros s'.
  apply (C8_aggregate_or mixed_child mixed_repo "post-receive" plain_opt init_state 3 s').
  - left; reflexivity.
  - vm_compute; lia.
  - vm_compute; reflexivity.
Defined.

(** C9: the executor is asked for ungrouped output exactly when the
    resolved job count is 1 or the list holds one hook. *)
Theorem C9_ungroup_rule run_child r ev options s v s' :
  (o_path_to_stdin options = None \/ o_feed_pipe options = false) ->
  (0 < length (hook_names r ev))%nat ->
  run_hooks_opt_fn run_child r ev options s = Ok v s' ->
  exists jobs msgs pp new, resolved_jobs r options (jobs_cache s) = Some jobs
    /\ trace s' = trace s ++ map EvStderr msgs ++ EvRunParallel pp :: new
    /\ Forall not_run_parallel new
    /\ pp_ungroup pp = ((jobs =? 1) || Nat.eqb (length (hook_names r ev)) 1).
Proof.
  intros Hone Hlen Hrun.
  destruct (run_ok_facts run_child r ev options s v s' Hone Hlen Hrun)
    as (jobs & msgs & new & Hres & _ & Htr & _ & _ & _ & Hfb & _).
  eexists jobs, msgs, _, new. split; [exact Hres|]. split; [exact Htr|]. split; [exact Hfb|].
  cbn. rewrite Nat.eqb_sym. reflexivity.
Qed.

Lemma C9_witness :
  let s' := final_state (run_hooks_opt_fn (fun _ => Some 0) example_repo "pre-commit" jobs4_opt init_state) in
  exists jobs msgs pp new, resolved_jobs example_repo jobs4_opt (jobs_cache init_state) = Some jobs
    /\ trace s' = trace init_state ++ map EvStderr msgs ++ EvRunParallel pp :: new
    /\ Forall not_run_parallel new
    /\ pp_ungroup pp = ((jobs =? 1) || Nat.eqb (length (hook_names example_repo "pre-commit")) 1).
Proof.
  intros s'.
  apply (C9_ungroup_rule (fun _ => Some 0) example_repo "pre-commit" jobs4_opt init_state 0 s').
  - left; reflexivity.
  - vm_compute; lia.
  - vm_compute; reflexivity.
Defined.

(** C10: with a stdin file, every task that runs reads the file's whole
    contents from the start, and when every child starts each hook runs
    once. *)
Theorem C10_stdin_file_replayed run_child r ev options s v s' p :
  o_path_to_stdin options = Some p -> o_feed_pipe options = false ->
  (0 < length (hook_names r ev))%nat ->
  run_hooks_opt_fn run_child r ev options s = Ok v s' ->
  file_contents r p <> None
  /\ exists msgs pp new, trace s' = trace s ++ map EvStderr msgs ++ EvRunParallel pp :: new
    /\ Forall (fun d => d = file_contents r p) (task_inputs new)
    /\ ((forall cp, run_child cp <> None) -> length (task_inputs new) = length (hook_names r ev)).
Proof.
  intros Hp Hf Hlen Hrun.
  destruct (run_ok_facts run_child r ev options s v s' (or_intror Hf) Hlen Hrun)
    as (jobs & msgs & new & _ & _ & Htr & Hst & _ & Hfa & _ & Hfc & _ & Hfile).
  split; [exact (Hfile p Hp)|].
  eexists msgs, _, new. split; [exact Htr|]. split.
  - apply (task_inputs_ok _ r options); [|exact Hfa].
    intros d Hd. unfold stdin_ok in Hd. rewrite Hp in Hd. exact Hd.
  - intros Hall. rewrite (task_inputs_count run_child new Hall Hfc). exact Hst.
Qed.

Lemma C10_witness :
  let s' := final_state (run_hooks_opt_fn (fun _ => Some 0) two_repo "post-receive"
                           (file_opt "in.txt") init_state) in
  file_contents two_repo "in.txt" <> None
  /\ exists msgs pp new, trace s' = trace init_state ++ map EvStderr msgs ++ EvRunParallel pp :: new
    /\ Forall (fun d => d = file_contents two_repo "in.txt") (task_inputs new)
    /\ ((forall cp, (fun _ : child_process => Some 0) cp <> None) ->
        length (task_inputs new) = length (hook_names two_repo "post-receive")).
Proof.
  intros s'.
  apply (C10_stdin_file_replayed (fun _ => Some 0) two_repo "post-receive" (file_opt "in.txt")
           init_state 0 s' "in.txt").
  - reflexivity.
  - reflexivity.
  - vm_compute; lia.
  - vm_compute; reflexivity.
Defined.

(** ** Further properties of hook.c and builtin/hook.c *)

(** Every successful run hands the executor one child per discovered hook,
    in the order of discovery (whether or not it then starts), each built as
    [hook_cp] describes: the command (or the hooks-directory path) followed
    by the options' arguments, the options' environment and directory,
    stdout sent to stderr, a shell for configured hooks, and the stdin the
    options ask for. *)
Theorem hook_run_dispatches_each_hook run_child r ev options s v s' :
  run_hooks_opt_fn run_child r ev options s = Ok v s' ->
  exists new, trace s' = trace s ++ new
    /\ Forall2 (hook_cp r options ev) (hook_names r ev) (dispatched new).
Proof. exact (run_hooks_opt_dispatch run_child r ev options s v s'). Qed.

(** [run_hooks_l] hands its arguments, after the command, to every hook it
    starts, with no stdin, no extra environment and no directory. *)
Theorem run_hooks_l_passes_args run_child r ev va s v s' :
  run_hooks_l run_child r ev va s = Ok v s' ->
  exists new, trace s' = trace s ++ new
    /\ Forall2 (fun _ cp => tl (cp_args cp) = va /\ cp_no_stdin cp = true
                            /\ cp_env cp = [] /\ cp_dir cp = None)
               (hook_names r ev) (dispatched new).
Proof. exact (run_hooks_l_children run_child r ev va s v s'). Qed.

(** [run_hooks_l] for an event with no hook returns 0 and prints nothing
    but the ignored-hook advice. *)
Theorem run_hooks_l_missing_silent run_child r ev va s :
  hook_names r ev = [] ->
  exists msgs s', run_hooks_l run_child r ev va s = Ok 0 s'
    /\ trace s' = trace s ++ map EvStderr msgs /\ Forall is_advice msgs.
Proof. exact (run_hooks_l_none run_child r ev va s). Qed.

(** Asking for both a stdin file and the feeder is a BUG, whatever the
    repository and the event, even with no hook to run. *)
Theorem run_hooks_opt_rejects_two_stdin run_child r ev options s p :
  o_path_to_stdin options = Some p -> o_feed_pipe options = true ->
  run_hooks_opt_fn run_child r ev options s = Bugged "choose only one method to populate stdin".
Proof. exact (run_hooks_opt_both_stdin run_child r ev options s p). Qed.

(** [hook_exists] is 1 exactly when discovery finds a hook (a configured
    one or an executable one in the hooks directory), and only prints the
    ignored-hook advice. *)
Theorem hook_exists_iff_hooks r ev s :
  exists s', hook_exists r ev s = Ok (if is_empty (hook_names r ev) then 0 else 1) s'
    /\ quiet is_advice s s'.
Proof. exact (hook_exists_result r ev s). Qed.

(** [find_hook] gives the hooks-directory path exactly when that file is
    executable; a second call for the same name gives the same answer and
    changes nothing, so the advice is printed at most once per name. *)
Theorem find_hook_second_call_quiet r nm s p s1 :
  find_hook r nm s = Ok p s1 ->
  p = (if hookdir_exec r nm then Some (hookdir_path r nm) else None)
  /\ find_hook r nm s1 = Ok p s1.
Proof. exact (find_hook_again r nm s p s1). Qed.

(** Once [configured_hook_jobs] has returned a nonzero job count, every
    later call returns it again, for any repository, without reading the
    configuration. *)
Theorem configured_hook_jobs_sticky r s j s1 :
  configured_hook_jobs r s = Ok j s1 -> j <> 0 ->
  forall r', configured_hook_jobs r' s1 = Ok j s1.
Proof. exact (configured_hook_jobs_cached r s j s1). Qed.



(** Once [pipe_from_string_list] has reported the end of the list for a
    task (returned 1, freeing its cursor), calling it again for that task
    reads the freed cursor: undefined behaviour. *)
Theorem pipe_from_string_list_use_after_free ctx task s d s1 :
  pipe_from_string_list ctx task s = Ok (1, d) s1 ->
  pipe_from_string_list ctx task s1 = Undefined.
Proof. exact (pipe_after_end ctx task s d s1). Qed.

(** [git hook run] for an event with no hook prints only the advice and
    exits 0 with [--ignore-missing]; without it, it prints "cannot find a
    hook named <event>" and exits 1. *)
Theorem git_hook_run_missing_exit run_child r ev ignore_missing opt s :
  hook_names r ev = [] ->
  (o_path_to_stdin opt = None \/ o_feed_pipe opt = false) ->
  exists msgs s', cmd_hook_run run_child r ev ignore_missing opt s
      = Ok (if negb ignore_missing || o_error_if_missing opt then 1 else 0) s'
    /\ trace s' = trace s ++ map EvStderr msgs
         ++ (if negb ignore_missing || o_error_if_missing opt then [EvStderr (cannot_find_msg ev)] else [])
    /\ Forall is_advice msgs.
Proof. exact (cmd_hook_run_no_hooks run_child r ev ignore_missing opt s). Qed.

(** [git hook run] with no hook name, or with a word after the hook name
    that is neither [--] nor [--end-of-options], stops with the usage and
    runs nothing. *)
Theorem git_hook_run_usage_errors run_child r argv ignore_missing opt s :
  (argv = [] \/ exists nm a rest, argv = nm :: a :: rest
                                  /\ a <> "--"%string /\ a <> "--end-of-options"%string) ->
  run_argv run_child r argv ignore_missing opt s = Died builtin_hook_run_usage s.
Proof. exact (run_argv_usage run_child r argv ignore_missing opt s). Qed.

(** [git hook run <name> -- <args>] gives every hook it starts exactly
    <args> after its command. *)
Theorem git_hook_run_passes_args run_child r nm sep args ignore_missing opt s v s' :
  (sep = "--"%string \/ sep = "--end-of-options"%string) ->
  run_argv run_child r (nm :: sep :: args) ignore_missing opt s = Ok v s' ->
  exists new, trace s' = trace s ++ new
    /\ Forall2 (fun _ cp => tl (cp_args cp) = o_args opt ++ args)
               (hook_names r nm) (dispatched new).
Proof. exact (run_argv_hook_args run_child r nm sep args ignore_missing opt s v s'). Qed.

(** A stdin file that cannot be opened makes the run die before any hook
    is started. *)
Theorem run_hooks_opt_dies_on_unopenable_stdin run_child r ev options s p :
  o_path_to_stdin options = Some p -> o_feed_pipe options = false ->
  file_contents r p = None -> hook_names r ev <> [] ->
  resolved_jobs r options (jobs_cache s) <> None ->
  exists s', run_hooks_opt_fn run_child r ev options s
             = Died ("could not open '" ++ p ++ "' for reading")%string s'
    /\ dispatched (trace s') = dispatched (trace s).
Proof. exact (run_missing_stdin_file run_child r ev options s p). Qed.

(** Evaluates the run a witness is about, and names its equation [E]. *)
Ltac run_ok E :=
  cbv zeta;
  match goal with
  | |- ?l = ?r /\ _ => assert (E : l = r) by (vm_compute; reflexivity); split; [exact E|]
  end.

Lemma hook_run_dispatches_each_hook_witness :
  let o := run_hooks_opt_fn (fun _ => Some 0) dir_repo "pre-commit" dir_opt init_state in
  o = Ok 0 (final_state o)
  /\ exists new, trace (final_state o) = trace init_state ++ new
       /\ Forall2 (hook_cp dir_repo dir_opt "pre-commit") (hook_names dir_repo "pre-commit")
                  (dispatched new).
Proof.
  run_ok E.
  exact (hook_run_dispatches_each_hook _ _ _ _ _ _ _ E).
Defined.

Lemma run_hooks_l_passes_args_witness :
  let o := run_hooks_l (fun _ => Some 0) dir_repo "pre-commit" ["a"; "b"]%string init_state in
  o = Ok 0 (final_state o)
  /\ exists new, trace (final_state o) = trace init_state ++ new
    /\ Forall2 (fun _ cp => tl (cp_args cp) = ["a"; "b"]%string /\ cp_no_stdin cp = true
                            /\ cp_env cp = [] /\ cp_dir cp = None)
               (hook_names dir_repo "pre-commit") (dispatched new).
Proof.
  run_ok E.
  exact (run_hooks_l_passes_args _ _ _ _ _ _ _ E).
Defined.

Lemma run_hooks_l_missing_silent_witness :
  hook_names dir_repo "post-commit" = []
  /\ exists msgs s', run_hooks_l (fun _ => Some 0) dir_repo "post-commit" ["a"]%string init_state
                     = Ok 0 s'
    /\ trace s' = trace init_state ++ map EvStderr msgs /\ Forall is_advice msgs.
Proof.
  assert (H : hook_names dir_repo "post-commit" = []) by (vm_compute; reflexivity).
  split; [exact H|]. exact (run_hooks_l_missing_silent _ _ _ _ _ H).
Defined.

Lemma run_hooks_opt_rejects_two_stdin_witness :
  run_hooks_opt_fn (fun _ => Some 0) nocmd_repo "post-commit"
    (mk_opt [] [] false (Some "in.txt"%string) true [] false 0 None false) init_state
  = Bugged "choose only one method to populate stdin".
Proof.
  apply (run_hooks_opt_rejects_two_stdin _ _ _ _ _ "in.txt"); reflexivity.
Defined.

Lemma find_hook_second_call_quiet_witness :
  let o := find_hook advice_repo "pre-commit" init_state in
  o = Ok None (final_state o)
  /\ None = (if hookdir_exec advice_repo "pre-commit"
             then Some (hookdir_path advice_repo "pre-commit") else None)
  /\ find_hook advice_repo "pre-commit" (final_state o) = Ok None (final_state o).
Proof.
  run_ok E. exact (find_hook_second_call_quiet _ _ _ _ _ E).
Defined.

Lemma configured_hook_jobs_sticky_witness :
  let o := configured_hook_jobs dir_repo init_state in
  o = Ok 4 (final_state o) /\ 4 <> 0
  /\ configured_hook_jobs advice_repo (final_state o) = Ok 4 (final_state o).
Proof.
  run_ok E.
  assert (N : 4 <> 0) by lia. split; [exact N|].
  exact (configured_hook_jobs_sticky _ _ _ _ E N advice_repo).
Defined.



Lemma pipe_from_string_list_use_after_free_witness :
  let o := pipe_from_string_list ["x"]%string 0 (at_hook (Cursor 1) "a") in
  o = Ok (1, EmptyString) (final_state o)
  /\ pipe_from_string_list ["x"]%string 0 (final_state o) = Undefined.
Proof.
  run_ok E. exact (pipe_from_string_list_use_after_free _ _ _ _ _ E).
Defined.

Lemma git_hook_run_missing_exit_witness :
  exists msgs s', cmd_hook_run (fun _ => Some 0) dir_repo "post-commit" false plain_opt init_state
      = Ok 1 s'
    /\ trace s' = trace init_state ++ map EvStderr msgs ++ [EvStderr (cannot_find_msg "post-commit")]
    /\ Forall is_advice msgs.
Proof.
  apply (git_hook_run_missing_exit (fun _ => Some 0) dir_repo "post-commit" false plain_opt init_state).
  - vm_compute; reflexivity.
  - left; reflexivity.
Defined.

Lemma git_hook_run_usage_errors_witness :
  run_argv (fun _ => Some 0) dir_repo ["pre-commit"; "extra"]%string false plain_opt init_state
  = Died builtin_hook_run_usage init_state.
Proof.
  apply git_hook_run_usage_errors. right.
  exists "pre-commit"%string, "extra"%string, []. split; [reflexivity|].
  split; vm_compute; discriminate.
Defined.

Lemma git_hook_run_passes_args_witness :
  let o := run_argv (fun _ => Some 0) dir_repo ["pre-commit"; "--"; "x"; "y"]%string false
             plain_opt init_state in
  o = Ok 0 (final_state o)
  /\ exists new, trace (final_state o) = trace init_state ++ new
    /\ Forall2 (fun _ cp => tl (cp_args cp) = o_args plain_opt ++ ["x"; "y"]%string)
               (hook_names dir_repo "pre-commit") (dispatched new).
Proof.
  run_ok E.
  exact (git_hook_run_passes_args _ _ _ _ _ _ _ _ _ _ (or_introl eq_refl) E).
Defined.

Lemma run_hooks_opt_dies_on_unopenable_stdin_witness :
  exists s', run_hooks_opt_fn (fun _ => Some 0) two_repo "post-receive" (file_opt "nope.txt")
               init_state
             = Died ("could not open '" ++ "nope.txt" ++ "' for reading")%string s'
    /\ dispatched (trace s') = dispatched (trace init_state).
Proof.
  apply run_hooks_opt_dies_on_unopenable_stdin; vm_compute; first [reflexivity | discriminate].
Defined.
